(** * Prompt recovery from ComfyUI workflow graphs

    A shallow embedding of [workflow_images/extract_prompt.py]: the
    [UIGraph] class (node store, reverse-edge index, sampler selection,
    encoder text readers, forward reachability) and [extract_prompts].

    The program runs on whatever [json.loads] produced, so values are
    modelled as untyped JSON and every Python operation that can raise is
    modelled as raising.  Numbers are integers (documents containing
    floating-point numbers are outside the model) and a character of a
    string stands for a code point below 256. *)

From Stdlib Require Import ZArith String Ascii List Bool Lia.
Import ListNotations.
Local Open Scope string_scope.
Local Open Scope list_scope.

(** ** Python values *)

#[warnings="-register-all"] Inductive json : Type :=
| JNull
| JBool (b : bool)
| JInt (z : Z)
| JStr (s : string)
| JList (l : list json)
| JDict (d : list (string * json)).

(** A node of the editor graph is a JSON object: its entries in insertion
    order. *)
Definition node : Type := list (string * json).

(** ** Exceptions *)

Inductive exn : Type := TypeError | KeyError | IndexError | AttributeError.

Inductive res (A : Type) : Type :=
| Ok (a : A)
| Raise (e : exn).
Arguments Ok {A} a.
Arguments Raise {A} e.

Definition bind {A B : Type} (m : res A) (f : A -> res B) : res B :=
  match m with
  | Ok a => f a
  | Raise e => Raise e
  end.

Notation "x <- m ;; k" := (bind m (fun x => k))
  (at level 61, m at next level, right associativity).

(** [try: body / except Exception: pass] around a state update: on any
    exception the state is left as it was. *)
Definition try_pass {S : Type} (body : res S) (unchanged : S) : S :=
  match body with
  | Ok s => s
  | Raise _ => unchanged
  end.

(** ** Python primitives *)

Module Py.

(** Truth value of an object, as used by [if x], [x or y]. *)
Definition truthy (v : json) : bool :=
  match v with
  | JNull => false
  | JBool b => b
  | JInt z => negb (z =? 0)%Z
  | JStr s => negb (s =? "")%string
  | JList l => match l with [] => false | _ :: _ => true end
  | JDict d => match d with [] => false | _ :: _ => true end
  end.

(** [a or b] *)
Definition or_ (a b : json) : json := if truthy a then a else b.

(** Lists and dicts are unhashable: using one as a dict key or testing it
    against a set raises [TypeError]. *)
Definition hashable (v : json) : bool :=
  match v with
  | JList _ | JDict _ => false
  | _ => true
  end.

Definition int_of (v : json) : option Z :=
  match v with
  | JBool b => Some (if b then 1 else 0)%Z
  | JInt z => Some z
  | _ => None
  end.

(** Equality of hashable values as dict keys: [True == 1], [False == 0]. *)
Definition key_eq (a b : json) : bool :=
  match a, b with
  | JNull, JNull => true
  | JStr s, JStr t => (s =? t)%string
  | _, _ =>
      match int_of a, int_of b with
      | Some x, Some y => (x =? y)%Z
      | _, _ => false
      end
  end.

(** [v == s] for a string constant [s]. *)
Definition str_is (v : json) (s : string) : bool :=
  match v with
  | JStr t => (t =? s)%string
  | _ => false
  end.

(** [v in [s1, s2, ...]] for a list of string constants (compares with
    [==], never hashes). *)
Definition in_strs (v : json) (l : list string) : bool :=
  existsb (str_is v) l.

(** [v in {s1, s2, ...}] for a set of string constants: hashes [v]. *)
Definition in_str_set (v : json) (l : list string) : res bool :=
  if hashable v then Ok (in_strs v l) else Raise TypeError.

(** Lookup in a JSON object. *)
Fixpoint lookup (d : list (string * json)) (k : string) : option json :=
  match d with
  | [] => None
  | (k', v) :: r => if (k' =? k)%string then Some v else lookup r k
  end.

(** [d.get(k)] on a value known to be a dict. *)
Definition dget (d : list (string * json)) (k : string) : json :=
  match lookup d k with
  | Some v => v
  | None => JNull
  end.

(** [v.get(k)]: only dicts have [get]. *)
Definition get (v : json) (k : string) : res json :=
  match v with
  | JDict d => Ok (dget d k)
  | _ => Raise AttributeError
  end.

(** [v.get(k, default)] *)
Definition get_default (v : json) (k : string) (dflt : json) : res json :=
  match v with
  | JDict d => Ok (match lookup d k with Some x => x | None => dflt end)
  | _ => Raise AttributeError
  end.

(** [v["k"]] with a string key. *)
Definition getitem (v : json) (k : string) : res json :=
  match v with
  | JDict d =>
      match lookup d k with
      | Some x => Ok x
      | None => Raise KeyError
      end
  | _ => Raise TypeError
  end.

(** [v[i]] with a non-negative integer literal [i]. *)
Definition index (v : json) (i : nat) : res json :=
  match v with
  | JList l =>
      match nth_error l i with
      | Some x => Ok x
      | None => Raise IndexError
      end
  | JStr s =>
      match String.get i s with
      | Some c => Ok (JStr (String c EmptyString))
      | None => Raise IndexError
      end
  | JDict _ => Raise KeyError
  | _ => Raise TypeError
  end.

Fixpoint chars (s : string) : list json :=
  match s with
  | EmptyString => []
  | String c r => JStr (String c EmptyString) :: chars r
  end.

(** [for x in v]: the items iteration yields. *)
Definition iter (v : json) : res (list json) :=
  match v with
  | JList l => Ok l
  | JDict d => Ok (map (fun kv => JStr (fst kv)) d)
  | JStr s => Ok (chars s)
  | _ => Raise TypeError
  end.

(** [isinstance(s, str) and needle in s] helper: substring test. *)
Fixpoint is_substring (needle s : string) : bool :=
  String.prefix needle s
  || match s with
     | EmptyString => false
     | String _ r => is_substring needle r
     end.

(** ["k" in v] *)
Definition contains_str (k : string) (v : json) : res bool :=
  match v with
  | JDict d => Ok (match lookup d k with Some _ => true | None => false end)
  | JList l => Ok (existsb (fun x => str_is x k) l)
  | JStr s => Ok (is_substring k s)
  | _ => Raise TypeError
  end.

(** *** [str.strip()] *)

Definition is_space (c : ascii) : bool :=
  let n := nat_of_ascii c in
  ((9 <=? n)%nat && (n <=? 13)%nat) || ((28 <=? n)%nat && (n <=? 32)%nat)
  || (n =? 133)%nat || (n =? 160)%nat.

Fixpoint lstrip (s : string) : string :=
  match s with
  | EmptyString => EmptyString
  | String c r => if is_space c then lstrip r else s
  end.

Fixpoint rstrip (s : string) : string :=
  match s with
  | EmptyString => EmptyString
  | String c r =>
      match rstrip r with
      | EmptyString => if is_space c then EmptyString else String c EmptyString
      | r' => String c r'
      end
  end.

Definition strip (s : string) : string := rstrip (lstrip s).

(** A string is blank when it is empty or consists of whitespace only. *)
Fixpoint blank (s : string) : bool :=
  match s with
  | EmptyString => true
  | String c r => is_space c && blank r
  end.

(** *** Insertion-ordered dicts with arbitrary hashable keys *)

Section Dict.
Context {K V : Type} (eqk : K -> K -> bool).

(** [d[k] = v]: an existing key keeps its position (and its key
    object); a new key goes last. *)
Fixpoint dict_set (d : list (K * V)) (k : K) (v : V) : list (K * V) :=
  match d with
  | [] => [(k, v)]
  | (k', v') :: r =>
      if eqk k k' then (k', v) :: r else (k', v') :: dict_set r k v
  end.

Fixpoint dict_find (d : list (K * V)) (k : K) : option V :=
  match d with
  | [] => None
  | (k', v') :: r => if eqk k k' then Some v' else dict_find r k
  end.

(** [d.values()] *)
Definition dict_values (d : list (K * V)) : list V := map snd d.
End Dict.

End Py.

(** ** Module-level helpers of [extract_prompt.py] *)

(** [lst[idx] if isinstance(lst, list) and len(lst) > idx else None] *)
Definition _safe_get (lst : json) (idx : nat) : json :=
  match lst with
  | JList l =>
      match nth_error l idx with
      | Some v => v
      | None => JNull
      end
  | _ => JNull
  end.

(** [(s or "").strip() or None]: [strip] exists on strings only. *)
Definition _norm (s : json) : res json :=
  match Py.or_ s (JStr "") with
  | JStr t => Ok (Py.or_ (JStr (Py.strip t)) JNull)
  | _ => Raise AttributeError
  end.

(** ** Class [UIGraph] *)

Definition KNOWN_POSNEG_SAMPLERS : list string :=
  ["KSampler"; "ClownsharKSampler_Beta"].

Definition KNOWN_TEXT_EMBEDS_SAMPLERS : list string :=
  ["WanVideoSampler"].

Definition OUTPUT_TYPES : list string :=
  ["VHS_VideoCombine"; "SaveImage"; "WanVideoDecode"].

(** A reader is called as [reader(n, widgets, which)]. *)
Definition reader : Type := node -> json -> json -> res json.

Definition ENCODER_READERS : list (string * reader) :=
  [ ("CLIPTextEncode", fun _ w _ => _norm (_safe_get w 0));
    ("TextEncodeQwenImageEdit", fun _ w _ => _norm (_safe_get w 0));
    ("WanVideoTextEncode",
      fun _ w which =>
        _norm (if Py.str_is which "negative"
               then _safe_get w 1 else _safe_get w 0)) ].

Fixpoint reader_lookup (tbl : list (string * reader)) (ty : string)
  : option reader :=
  match tbl with
  | [] => None
  | (k, r) :: rest => if (k =? ty)%string then Some r else reader_lookup rest ty
  end.

(** [ENCODER_READERS.get(node_type)]: hashes [node_type]. *)
Definition reader_for (node_type : json) : res (option reader) :=
  if Py.hashable node_type then
    Ok (match node_type with
        | JStr ty => reader_lookup ENCODER_READERS ty
        | _ => None
        end)
  else Raise TypeError.

(** Keys of the reverse-edge index are tuples [(dst, dst_slot)]. *)
Definition edge_key : Type := (json * json)%type.

Definition edge_key_eq (a b : edge_key) : bool :=
  Py.key_eq (fst a) (fst b) && Py.key_eq (snd a) (snd b).

Definition edge_key_hashable (k : edge_key) : bool :=
  Py.hashable (fst k) && Py.hashable (snd k).

Record UIGraph : Type := {
  nodes : list (json * node);
  links : json;
  in_edge : list (edge_key * json)
}.

(** [n["id"]] on a node object. *)
Definition node_id (n : node) : res json :=
  match Py.lookup n "id" with
  | Some v => Ok v
  | None => Raise KeyError
  end.

(** One item of the comprehension [{n["id"]: n for n in ...}]. *)
Definition store_node (acc : list (json * node)) (n : json)
  : res (list (json * node)) :=
  id <- Py.getitem n "id" ;;
  match n with
  | JDict e =>
      if Py.hashable id then Ok (Py.dict_set Py.key_eq acc id e)
      else Raise TypeError
  | _ => Raise TypeError
  end.

Fixpoint build_nodes (items : list json) (acc : list (json * node))
  : res (list (json * node)) :=
  match items with
  | [] => Ok acc
  | n :: rest => acc' <- store_node acc n ;; build_nodes rest acc'
  end.

(** [src, dst, dst_slot = L[1], L[3], L[4]] *)
Definition link_fields (L : json) : res (json * json * json) :=
  src <- Py.index L 1 ;;
  dst <- Py.index L 3 ;;
  dst_slot <- Py.index L 4 ;;
  Ok (src, dst, dst_slot).

(** The body of the [try]: read the fields, then
    [self.in_edge[(dst, dst_slot)] = src]. *)
Definition store_edge (idx : list (edge_key * json)) (L : json)
  : res (list (edge_key * json)) :=
  f <- link_fields L ;;
  match f with
  | (src, dst, dst_slot) =>
      if edge_key_hashable (dst, dst_slot)
      then Ok (Py.dict_set edge_key_eq idx (dst, dst_slot) src)
      else Raise TypeError
  end.

(** One iteration of [for L in self.links: try: ... except Exception: pass]. *)
Definition scan_link (idx : list (edge_key * json)) (L : json)
  : list (edge_key * json) :=
  try_pass (store_edge idx L) idx.

Definition build_in_edge (Ls : list json) : list (edge_key * json) :=
  fold_left scan_link Ls [].

(** [UIGraph.__init__(self, wf)] *)
Definition __init__ (wf : json) : res UIGraph :=
  ns <- Py.get_default wf "nodes" (JList []) ;;
  items <- Py.iter ns ;;
  nds <- build_nodes items [] ;;
  ls <- Py.get_default wf "links" (JList []) ;;
  Ls <- Py.iter ls ;;
  Ok {| nodes := nds; links := ls; in_edge := build_in_edge Ls |}.

(** [[n for n in self.nodes.values() if n.get("type") in tset]] *)
Fixpoint find_nodes_in (ns : list node) (types : list string)
  : res (list node) :=
  match ns with
  | [] => Ok []
  | n :: rest =>
      b <- Py.in_str_set (Py.dget n "type") types ;;
      tl <- find_nodes_in rest types ;;
      Ok (if b then n :: tl else tl)
  end.

Definition find_nodes (g : UIGraph) (types : list string) : res (list node) :=
  find_nodes_in (Py.dict_values (nodes g)) types.

Definition first_node (g : UIGraph) (types : list string)
  : res (option node) :=
  ns <- find_nodes g types ;;
  Ok (hd_error ns).

(** The loop of [input_index]: [enumerate] from [idx]. *)
Fixpoint index_of_name (ins : list json) (name : string) (idx : nat)
  : res (option nat) :=
  match ins with
  | [] => Ok None
  | inp :: rest =>
      nm <- Py.get inp "name" ;;
      if Py.str_is nm name then Ok (Some idx)
      else index_of_name rest name (S idx)
  end.

(** [node.get("inputs") or []], iterated. *)
Definition declared_inputs (n : node) : res (list json) :=
  Py.iter (Py.or_ (Py.dget n "inputs") (JList [])).

Definition input_index (n : node) (name : string) : res (option nat) :=
  ins <- declared_inputs n ;;
  index_of_name ins name 0.

(** A slot index or [None], as a Python value. *)
Definition slot_value (i : option nat) : json :=
  match i with
  | Some k => JInt (Z.of_nat k)
  | None => JNull
  end.

(** [self.in_edge.get((dst_id, dst_slot))] *)
Definition src_for (g : UIGraph) (dst_id dst_slot : json) : res json :=
  if edge_key_hashable (dst_id, dst_slot) then
    Ok (match Py.dict_find edge_key_eq (in_edge g) (dst_id, dst_slot) with
        | Some src => src
        | None => JNull
        end)
  else Raise TypeError.

(** [self.nodes.get(nid) or {}] for a hashable [nid]. *)
Definition node_or_empty (g : UIGraph) (nid : json) : node :=
  match Py.dict_find Py.key_eq (nodes g) nid with
  | Some n => n
  | None => []
  end.

Definition read_text_from_node (g : UIGraph) (nid which : json) : res json :=
  match nid with
  | JNull => Ok JNull
  | _ =>
      if Py.hashable nid then
        let n := node_or_empty g nid in
        let node_type := Py.dget n "type" in
        let widgets := Py.dget n "widgets_values" in
        rd <- reader_for node_type ;;
        match rd with
        | Some r => r n widgets which
        | None => Ok JNull
        end
      else Raise TypeError
  end.

(** *** Forward reachability: [_reaches_output] *)

(** [out_by_src.setdefault(L[1], []).append(L[3])] *)
Definition add_out_edge (out : list (json * list json)) (L : json)
  : res (list (json * list json)) :=
  src <- Py.index L 1 ;;
  if Py.hashable src then
    dst <- Py.index L 3 ;;
    Ok (Py.dict_set Py.key_eq out src
          (match Py.dict_find Py.key_eq out src with
           | Some ds => ds ++ [dst]
           | None => [dst]
           end))
  else Raise TypeError.

Fixpoint build_out_by_src (Ls : list json) (out : list (json * list json))
  : res (list (json * list json)) :=
  match Ls with
  | [] => Ok out
  | L :: rest => out' <- add_out_edge out L ;; build_out_by_src rest out'
  end.

(** [out_by_src.get(nid, [])] *)
Definition successors (out : list (json * list json)) (nid : json)
  : list json :=
  match Py.dict_find Py.key_eq out nid with
  | Some ds => ds
  | None => []
  end.

(** [dst in seen] for a hashable [dst]. *)
Definition in_seen (dst : json) (seen : list json) : bool :=
  existsb (Py.key_eq dst) seen.

(** Outcome of scanning part of a layer: either [return True] was reached
    or the loop goes on with the updated [seen] and [nxt]. *)
Inductive scan : Type :=
| Found
| Continue (seen nxt : list json).

(** [for dst in out_by_src.get(nid, []): ...] *)
Fixpoint scan_dsts (g : UIGraph) (dsts seen nxt : list json) : res scan :=
  match dsts with
  | [] => Ok (Continue seen nxt)
  | dst :: rest =>
      if Py.hashable dst then
        if in_seen dst seen then scan_dsts g rest seen nxt
        else
          is_out <- Py.in_str_set (Py.dget (node_or_empty g dst) "type")
                                  OUTPUT_TYPES ;;
          if is_out then Ok Found
          else scan_dsts g rest (dst :: seen) (nxt ++ [dst])
      else Raise TypeError
  end.

(** [for nid in q: ...] *)
Fixpoint scan_layer (g : UIGraph) (out : list (json * list json))
  (q seen nxt : list json) : res scan :=
  match q with
  | [] => Ok (Continue seen nxt)
  | nid :: rest =>
      r <- scan_dsts g (successors out nid) seen nxt ;;
      match r with
      | Found => Ok Found
      | Continue seen' nxt' => scan_layer g out rest seen' nxt'
      end
  end.

(** [while q and hops < max_hops: ...; hops += 1], by the number of hops
    still allowed. *)
Fixpoint bfs (g : UIGraph) (out : list (json * list json))
  (hops_left : nat) (q seen : list json) : res bool :=
  match q, hops_left with
  | [], _ => Ok false
  | _, O => Ok false
  | _, S k =>
      r <- scan_layer g out q seen [] ;;
      match r with
      | Found => Ok true
      | Continue seen' nxt => bfs g out k nxt seen'
      end
  end.

Definition _reaches_output (g : UIGraph) (start_id : json) (max_hops : nat)
  : res bool :=
  Ls <- Py.iter (links g) ;;
  out <- build_out_by_src Ls [] ;;
  if Py.hashable start_id then bfs g out max_hops [start_id] [start_id]
  else Raise TypeError.

(** The default [max_hops=200]. *)
Definition default_max_hops : nat := 200.

(** *** Sampler selection *)

(** [[i.get("name") for i in ins]] *)
Fixpoint input_names (ins : list json) : res (list json) :=
  match ins with
  | [] => Ok []
  | i :: rest =>
      nm <- Py.get i "name" ;;
      tl <- input_names rest ;;
      Ok (nm :: tl)
  end.

(** ["name" in names] *)
Definition has_name (name : string) (names : list json) : bool :=
  existsb (fun x => Py.str_is x name) names.

(** [x is not None] *)
Definition is_not_none (v : json) : bool :=
  match v with
  | JNull => false
  | _ => true
  end.

(** The body of the first loop of [sampler_with_posneg] for one node: does
    the node become a candidate?  (The log lines read [n['id']].) *)
Definition posneg_candidate (g : UIGraph) (n : node) : res bool :=
  if negb (Py.in_strs (Py.dget n "type") KNOWN_POSNEG_SAMPLERS) then
    _ <- node_id n ;; Ok false
  else
    ins <- declared_inputs n ;;
    names <- input_names ins ;;
    if has_name "positive" names && has_name "negative" names then
      pos_idx <- input_index n "positive" ;;
      neg_idx <- input_index n "negative" ;;
      id <- node_id n ;;
      pos_src <- src_for g id (slot_value pos_idx) ;;
      neg_src <- src_for g id (slot_value neg_idx) ;;
      Ok (is_not_none pos_src || is_not_none neg_src)
    else Ok false.

(** The same for [sampler_with_text_embeds]. *)
Definition text_embeds_candidate (g : UIGraph) (n : node) : res bool :=
  if negb (Py.in_strs (Py.dget n "type") KNOWN_TEXT_EMBEDS_SAMPLERS) then
    _ <- node_id n ;; Ok false
  else
    ins <- declared_inputs n ;;
    names <- input_names ins ;;
    if has_name "text_embeds" names then
      embeds_idx <- input_index n "text_embeds" ;;
      id <- node_id n ;;
      embeds_src <- src_for g id (slot_value embeds_idx) ;;
      Ok (is_not_none embeds_src)
    else Ok false.

(** [candidates]: the nodes kept by the first loop, in the order of
    [self.nodes.values()]. *)
Fixpoint collect (keep : node -> res bool) (ns : list node)
  : res (list node) :=
  match ns with
  | [] => Ok []
  | n :: rest =>
      b <- keep n ;;
      tl <- collect keep rest ;;
      Ok (if b then n :: tl else tl)
  end.

(** [for candidate in candidates: if self._reaches_output(candidate["id"]):
    return candidate] *)
Fixpoint first_reaching (g : UIGraph) (cands : list node)
  : res (option node) :=
  match cands with
  | [] => Ok None
  | c :: rest =>
      id <- node_id c ;;
      b <- _reaches_output g id default_max_hops ;;
      if b then Ok (Some c) else first_reaching g rest
  end.

(** The two closing steps shared by both selection methods: prefer a
    candidate that reaches an output, else [candidates[0]], else [None]. *)
Definition select (g : UIGraph) (cands : list node) : res (option node) :=
  r <- first_reaching g cands ;;
  match r with
  | Some c => Ok (Some c)
  | None => Ok (hd_error cands)
  end.

Definition posneg_candidates (g : UIGraph) : res (list node) :=
  collect (posneg_candidate g) (Py.dict_values (nodes g)).

Definition text_embeds_candidates (g : UIGraph) : res (list node) :=
  collect (text_embeds_candidate g) (Py.dict_values (nodes g)).

Definition sampler_with_posneg (g : UIGraph) : res (option node) :=
  cands <- posneg_candidates g ;;
  select g cands.

Definition sampler_with_text_embeds (g : UIGraph) : res (option node) :=
  cands <- text_embeds_candidates g ;;
  select g cands.

(** ** [extract_prompts] *)

(** The pair [{"positive": ..., "negative": ...}]. *)
Definition prompts : Type := (json * json)%type.

Definition no_prompts : prompts := (JNull, JNull).

(** [if sampler:] on [None] or a node object. *)
Definition node_truthy (n : node) : bool :=
  match n with
  | [] => false
  | _ :: _ => true
  end.

(** [g.src_for(n["id"], idx) if idx is not None else None] *)
Definition src_of_input (g : UIGraph) (n : node) (idx : option nat)
  : res json :=
  match idx with
  | Some k => id <- node_id n ;; src_for g id (JInt (Z.of_nat k))
  | None => Ok JNull
  end.

(** The name -> slot -> link -> source -> reader chain, written out twice
    in the source (for the sampler and for the bridge): follow the inputs
    named "positive" and "negative" of [n] and read both texts. *)
Definition read_posneg (g : UIGraph) (n : node) : res prompts :=
  pos_idx <- input_index n "positive" ;;
  neg_idx <- input_index n "negative" ;;
  pos_src <- src_of_input g n pos_idx ;;
  neg_src <- src_of_input g n neg_idx ;;
  pos <- read_text_from_node g pos_src (JStr "positive") ;;
  neg <- read_text_from_node g neg_src (JStr "negative") ;;
  Ok (pos, neg).

(** [if pos or neg: return {...}]; [None] when the stage falls through. *)
Definition return_if_any (r : prompts) : option prompts :=
  if Py.truthy (fst r) || Py.truthy (snd r) then Some r else None.

(** [{"positive": _safe_get(w, 0), "negative": _safe_get(w, 1)}] with
    [w = n.get("widgets_values") or []] *)
Definition widget_prompts (n : node) : prompts :=
  let w := Py.or_ (Py.dget n "widgets_values") (JList []) in
  (_safe_get w 0, _safe_get w 1).

(** (a) Sampler with pos/neg inputs. *)
Definition stage_posneg (g : UIGraph) : res (option prompts) :=
  sampler <- sampler_with_posneg g ;;
  match sampler with
  | Some n =>
      if node_truthy n then
        _ <- node_id n ;;
        r <- read_posneg g n ;;
        Ok (return_if_any r)
      else Ok None
  | None => Ok None
  end.

(** (b) Sampler with text_embeds. *)
Definition stage_text_embeds (g : UIGraph) : res (option prompts) :=
  sampler <- sampler_with_text_embeds g ;;
  match sampler with
  | Some n =>
      if node_truthy n then
        _ <- node_id n ;;
        embeds_idx <- input_index n "text_embeds" ;;
        embeds_src <- src_of_input g n embeds_idx ;;
        if Py.truthy embeds_src then
          if Py.hashable embeds_src then
            let src_node := node_or_empty g embeds_src in
            let src_type := Py.dget src_node "type" in
            if Py.str_is src_type "WanVideoTextEmbedBridge" then
              r <- read_posneg g src_node ;;
              Ok (return_if_any r)
            else if Py.str_is src_type "WanVideoTextEncode" then
              Ok (Some (widget_prompts src_node))
            else Ok None
          else Raise TypeError
        else Ok None
      else Ok None
  | None => Ok None
  end.

(** (c) Fallback: standalone WanVideoTextEncode in the graph. *)
Definition stage_fallback (g : UIGraph) : res prompts :=
  wte <- first_node g ["WanVideoTextEncode"] ;;
  match wte with
  | Some n =>
      if node_truthy n then _ <- node_id n ;; Ok (widget_prompts n)
      else Ok no_prompts
  | None => Ok no_prompts
  end.

(** The UI-graph branch after [g = UIGraph(workflow)]. *)
Definition extract_ui (g : UIGraph) : res prompts :=
  a <- stage_posneg g ;;
  match a with
  | Some r => Ok r
  | None =>
      b <- stage_text_embeds g ;;
      match b with
      | Some r => Ok r
      | None => stage_fallback g
      end
  end.

(** First loop of the API branch: the first entry that is a dict of
    class_type WanVideoTextEncode decides. *)
Fixpoint api_wan_encode (items : list (string * json))
  : res (option prompts) :=
  match items with
  | [] => Ok None
  | (_, JDict nd) :: rest =>
      if Py.str_is (Py.dget nd "class_type") "WanVideoTextEncode" then
        inputs <- Py.get_default (JDict nd) "inputs" (JDict []) ;;
        p <- Py.get inputs "positive_prompt" ;;
        n <- Py.get inputs "negative_prompt" ;;
        Ok (Some (p, n))
      else api_wan_encode rest
  | _ :: rest => api_wan_encode rest
  end.

(** Second loop: the first TextEncodeQwenImageEdit entry whose inputs
    contain "prompt". *)
Fixpoint api_qwen_edit (items : list (string * json))
  : res (option prompts) :=
  match items with
  | [] => Ok None
  | (_, JDict nd) :: rest =>
      if Py.str_is (Py.dget nd "class_type") "TextEncodeQwenImageEdit" then
        inputs <- Py.get_default (JDict nd) "inputs" (JDict []) ;;
        has <- Py.contains_str "prompt" inputs ;;
        if has then
          p <- Py.getitem inputs "prompt" ;;
          Ok (Some (p, JNull))
        else api_qwen_edit rest
      else api_qwen_edit rest
  | _ :: rest => api_qwen_edit rest
  end.

(** The API-graph branch. *)
Definition extract_api (items : list (string * json)) : res prompts :=
  a <- api_wan_encode items ;;
  match a with
  | Some r => Ok r
  | None =>
      b <- api_qwen_edit items ;;
      match b with
      | Some r => Ok r
      | None => Ok no_prompts
      end
  end.

Definition extract_prompts (workflow : json) : res prompts :=
  match workflow with
  | JDict d =>
      match Py.lookup d "nodes" with
      | Some _ => g <- __init__ workflow ;; extract_ui g
      | None => extract_api d
      end
  | _ => Ok no_prompts
  end.

(** ** Vocabulary for stating properties *)

(** What the scan does with a link entry: the key and source it stores, or
    nothing when the body of the [try] raises. *)
Definition accepted (L : json) : option (edge_key * json) :=
  match link_fields L with
  | Ok (src, dst, dst_slot) =>
      if edge_key_hashable (dst, dst_slot) then Some ((dst, dst_slot), src)
      else None
  | Raise _ => None
  end.

(** The link entry is indexed under a key equal to [k]. *)
Definition targets (k : edge_key) (L : json) : bool :=
  match accepted L with
  | Some (k', _) => edge_key_eq k k'
  | None => false
  end.

(** The link entry is indexed under some slot of node [d]. *)
Definition feeds (d : json) (L : json) : bool :=
  match accepted L with
  | Some (k', _) => Py.key_eq d (fst k')
  | None => false
  end.

(** A link as the editor writes it:
    [[link_id, src, src_slot, dst, dst_slot, data_type]]. *)
Definition editor_link (id src src_slot dst dst_slot : Z) (ty : string)
  : json :=
  JList [JInt id; JInt src; JInt src_slot; JInt dst; JInt dst_slot; JStr ty].

(** ** Sample documents *)

Definition input_decl (name : string) : json := JDict [("name", JStr name)].

Definition node_obj (id : Z) (ty : string) (ins : list string)
  (widgets : list json) : json :=
  JDict [("id", JInt id); ("type", JStr ty);
         ("inputs", JList (map input_decl ins));
         ("widgets_values", JList widgets)].

Definition graph_doc (ns Ls : list json) : json :=
  JDict [("nodes", JList ns); ("links", JList Ls)].

(** Two encoders feeding a sampler, slot 1 being fed twice. *)
Definition doc_rewired : json :=
  graph_doc
    [ node_obj 76 "CLIPTextEncode" [] [JStr "a photo"];
      node_obj 77 "CLIPTextEncode" [] [JStr "blurry"];
      node_obj 101 "KSampler" ["model"; "positive"; "negative"] [] ]
    [ editor_link 1 77 0 101 1 "CONDITIONING";
      editor_link 2 77 0 101 2 "CONDITIONING";
      editor_link 3 76 0 101 1 "CONDITIONING" ].

(** Slot 1 of the sampler fed by an editor-written link from node 77 and
    then by an entry of five fields whose source id is a string. *)
Definition doc_overridden_link : json :=
  graph_doc
    [ node_obj 76 "CLIPTextEncode" [] [JStr "a photo"];
      node_obj 77 "CLIPTextEncode" [] [JStr "blurry"];
      node_obj 101 "KSampler" ["model"; "positive"; "negative"] [] ]
    [ editor_link 1 77 0 101 1 "CONDITIONING";
      JList [JInt 2; JStr "x"; JInt 0; JInt 101; JInt 1] ].

(** The top-level shape [__init__] depends on: an entry of "nodes" can be
    stored when it is an object with a hashable "id". *)
Definition node_storable (n : json) : bool :=
  match n with
  | JDict e =>
      match Py.lookup e "id" with
      | Some id => Py.hashable id
      | None => false
      end
  | _ => false
  end.

Definition iterable (v : json) : bool :=
  match Py.iter v with
  | Ok _ => true
  | Raise _ => false
  end.

(** The document is a dict, its "nodes" (default: none) iterate over
    storable entries and its "links" (default: none) can be iterated.  The
    link entries themselves are not looked at. *)
Definition constructible (wf : json) : bool :=
  match wf with
  | JDict d =>
      match Py.iter (match Py.lookup d "nodes" with
                     | Some ns => ns
                     | None => JList []
                     end) with
      | Ok items =>
          forallb node_storable items
          && iterable (match Py.lookup d "links" with
                       | Some ls => ls
                       | None => JList []
                       end)
      | Raise _ => false
      end
  | _ => false
  end.

Definition is_accepted (L : json) : bool :=
  match accepted L with
  | Some _ => true
  | None => false
  end.

(** Links with string ids and a link of five fields. *)
Definition doc_odd_links : json :=
  graph_doc []
    [ JList [JInt 1; JStr "a"; JInt 0; JStr "b"; JInt 0; JStr "LATENT"];
      JList [JInt 2; JInt 3; JInt 0; JInt 4; JInt 1];
      JList [JInt 7] ].

(** [self._reaches_output(candidate["id"])] for a candidate node. *)
Definition candidate_reaches (g : UIGraph) (c : node) : res bool :=
  id <- node_id c ;;
  _reaches_output g id default_max_hops.

(** The test of the first loop says yes. *)
Definition kept (keep : node -> res bool) (n : node) : bool :=
  match keep n with
  | Ok b => b
  | Raise _ => false
  end.

(** Two wired samplers; only the second one leads to a SaveImage node. *)
Definition doc_two_samplers : json :=
  graph_doc
    [ node_obj 10 "CLIPTextEncode" [] [JStr "orphan text"];
      node_obj 11 "CLIPTextEncode" [] [JStr "live text"];
      node_obj 1 "KSampler" ["positive"; "negative"] [];
      node_obj 2 "KSampler" ["positive"; "negative"] [];
      node_obj 3 "SaveImage" ["images"] [] ]
    [ editor_link 1 10 0 1 0 "CONDITIONING";
      editor_link 2 11 0 2 0 "CONDITIONING";
      editor_link 3 2 0 3 0 "IMAGE" ].

(** The same two samplers with nothing downstream. *)
Definition doc_two_orphans : json :=
  graph_doc
    [ node_obj 10 "CLIPTextEncode" [] [JStr "first text"];
      node_obj 11 "CLIPTextEncode" [] [JStr "second text"];
      node_obj 1 "KSampler" ["positive"; "negative"] [];
      node_obj 2 "KSampler" ["positive"; "negative"] [] ]
    [ editor_link 1 10 0 1 0 "CONDITIONING";
      editor_link 2 11 0 2 0 "CONDITIONING" ].

(** The entries of a node object written by [node_obj]. *)
Definition node_entries (id : Z) (ty : string) (ins : list string)
  (widgets : list json) : node :=
  [("id", JInt id); ("type", JStr ty);
   ("inputs", JList (map input_decl ins));
   ("widgets_values", JList widgets)].

(** The graph object built from a document that constructs. *)
Definition graph_of (wf : json) : UIGraph :=
  match __init__ wf with
  | Ok g => g
  | Raise _ => {| nodes := []; links := JList []; in_edge := [] |}
  end.

(** The widget position a registered reader looks at: 1 for the negative
    side of a WanVideoTextEncode node, 0 otherwise. *)
Definition rule_position (node_type which : json) : nat :=
  if Py.str_is node_type "WanVideoTextEncode" && Py.str_is which "negative"
  then 1 else 0.

(** The raw value a reader hands to [_norm] for node [nid]. *)
Definition widget_read (g : UIGraph) (nid which : json) : json :=
  let n := node_or_empty g nid in
  _safe_get (Py.dget n "widgets_values")
            (rule_position (Py.dget n "type") which).

(** A value [_norm] accepts: falsy, or a string. *)
Definition textual (v : json) : bool :=
  negb (Py.truthy v) || match v with JStr _ => true | _ => false end.

(** A sampler wired to an encoder whose first widget is a number. *)
Definition doc_numeric_widget : json :=
  graph_doc
    [ node_obj 1 "CLIPTextEncode" [] [JInt 7];
      node_obj 2 "KSampler" ["positive"; "negative"] [] ]
    [ editor_link 1 1 0 2 0 "CONDITIONING" ].

(** A standalone dual-prompt encoder with blank texts. *)
Definition doc_blank_encoder : json :=
  graph_doc [ node_obj 1 "WanVideoTextEncode" [] [JStr ""; JStr "  "] ] [].

(** A flat document whose encoder fields are padded or empty. *)
Definition api_padded_entries : list (string * json) :=
  [ ("5", JDict [ ("class_type", JStr "WanVideoTextEncode");
                  ("inputs",
                   JDict [ ("positive_prompt", JStr "  hi ");
                           ("negative_prompt", JStr "") ]) ]) ].

Definition doc_api_padded : json := JDict api_padded_entries.

(** A text_embeds sampler wired to a dual-prompt encoder without widget
    values, while another dual-prompt encoder comes first in the graph. *)
Definition doc_empty_wired_encoder : json :=
  graph_doc
    [ node_obj 1 "WanVideoTextEncode" [] [JStr "hello"; JStr "bad"];
      JDict [("id", JInt 2); ("type", JStr "WanVideoTextEncode")];
      node_obj 3 "WanVideoSampler" ["model"; "text_embeds"] [] ]
    [ editor_link 1 2 0 3 1 "WANVIDEOTEXTEMBEDS" ].

(** A wired sampler in a document one of whose link entries is too
    short. *)
Definition doc_short_link : json :=
  graph_doc
    [ node_obj 1 "CLIPTextEncode" [] [JStr "a photo"];
      node_obj 2 "KSampler" ["positive"; "negative"] [] ]
    [ editor_link 1 1 0 2 0 "CONDITIONING";
      JList [JInt 7] ].

(** A sampler whose "negative" input alone is wired. *)
Definition doc_negative_only : json :=
  graph_doc
    [ node_obj 5 "CLIPTextEncode" [] [JStr "blurry, ugly "];
      node_obj 9 "KSampler" ["model"; "positive"; "negative"] [] ]
    [ editor_link 1 5 0 9 2 "CONDITIONING" ].

(** A text_embeds sampler fed by a bridge, the bridge fed by two
    encoders. *)
Definition doc_bridge : json :=
  graph_doc
    [ node_obj 20 "CLIPTextEncode" [] [JStr "a castle at dawn"];
      node_obj 21 "CLIPTextEncode" [] [JStr " low quality"];
      node_obj 30 "WanVideoTextEmbedBridge" ["positive"; "negative"]
        [JStr "bridge widget"];
      node_obj 90 "WanVideoSampler" ["model"; "image_embeds"; "text_embeds"] [] ]
    [ editor_link 1 20 0 30 0 "CONDITIONING";
      editor_link 2 21 0 30 1 "CONDITIONING";
      editor_link 3 30 0 90 2 "WANVIDEOTEXTEMBEDS" ].

(** A fully wired sampler followed by a sampler whose "negative" input
    alone is wired; neither leads to an output node. *)
Definition doc_partial_second : json :=
  graph_doc
    [ node_obj 1 "CLIPTextEncode" [] [JStr "a cat"];
      node_obj 2 "CLIPTextEncode" [] [JStr "blurry"];
      node_obj 3 "CLIPTextEncode" [] [JStr "dark"];
      node_obj 10 "KSampler" ["positive"; "negative"] [];
      node_obj 11 "KSampler" ["positive"; "negative"] [] ]
    [ editor_link 1 1 0 10 0 "CONDITIONING";
      editor_link 2 2 0 10 1 "CONDITIONING";
      editor_link 3 3 0 11 1 "CONDITIONING" ].

(** The bridge graph of [doc_bridge] next to a wired pos/neg sampler. *)
Definition doc_bridge_and_sampler : json :=
  graph_doc
    [ node_obj 20 "CLIPTextEncode" [] [JStr "a castle at dawn"];
      node_obj 21 "CLIPTextEncode" [] [JStr " low quality"];
      node_obj 30 "WanVideoTextEmbedBridge" ["positive"; "negative"] [];
      node_obj 90 "WanVideoSampler" ["model"; "image_embeds"; "text_embeds"] [];
      node_obj 40 "CLIPTextEncode" [] [JStr "a harbour"];
      node_obj 50 "KSampler" ["positive"; "negative"] [] ]
    [ editor_link 1 20 0 30 0 "CONDITIONING";
      editor_link 2 21 0 30 1 "CONDITIONING";
      editor_link 3 30 0 90 2 "WANVIDEOTEXTEMBEDS";
      editor_link 4 40 0 50 0 "CONDITIONING" ].

(** *** Vocabulary for the reachability check *)

(** A link entry the forward index can take: fields 1 and 3 can be read
    and are hashable. *)
Definition link_traversable (L : json) : bool :=
  match Py.index L 1, Py.index L 3 with
  | Ok src, Ok dst => Py.hashable src && Py.hashable dst
  | _, _ => false
  end.

(** Every node of the store has a hashable type tag. *)
Definition types_hashable (g : UIGraph) : bool :=
  forallb (fun kv => Py.hashable (Py.dget (snd kv) "type")) (nodes g).

(** No two members of the list are equal as keys. *)
Fixpoint distinct (l : list json) : Prop :=
  match l with
  | [] => True
  | x :: r => in_seen x r = false /\ distinct r
  end.

(** The loop of [bfs] again, recording the frontiers [q] whose nodes it
    dequeues, layer by layer, next to the answer. *)
Fixpoint bfs_trace (g : UIGraph) (out : list (json * list json))
  (hops_left : nat) (q seen : list json) : res (list (list json) * bool) :=
  match q, hops_left with
  | [], _ => Ok ([], false)
  | _, O => Ok ([], false)
  | _, S k =>
      r <- scan_layer g out q seen [] ;;
      match r with
      | Found => Ok ([q], true)
      | Continue seen' nxt =>
          t <- bfs_trace g out k nxt seen' ;;
          Ok (q :: fst t, snd t)
      end
  end.

(** A cycle 1 -> 2 -> 3 -> 1 with a branch 3 -> 4 to a SaveImage node. *)
Definition doc_cycle : json :=
  graph_doc
    [ node_obj 1 "KSampler" ["positive"; "negative"] [];
      node_obj 2 "VAEDecode" ["samples"] [];
      node_obj 3 "ImageBlend" ["image"] [];
      node_obj 4 "SaveImage" ["images"] [] ]
    [ editor_link 1 1 0 2 0 "LATENT";
      editor_link 2 2 0 3 0 "IMAGE";
      editor_link 3 3 0 1 0 "IMAGE";
      editor_link 4 3 0 4 0 "IMAGE" ].

(** Every list of successors holds hashable ids only. *)
Definition out_ok (out : list (json * list json)) : Prop :=
  forall k ds, In (k, ds) out -> forallb Py.hashable ds = true.

(** Whatever is not seen differs from every node of the frontier. *)
Definition covered (q seen : list json) : Prop :=
  forall x, In x q -> forall y, in_seen y seen = false -> Py.key_eq x y = false.

(** *** Vocabulary for the flat (API) branch *)

(** The entry is a dict of the given class_type. *)
Definition is_class (ty : string) (v : json) : bool :=
  match v with
  | JDict nd => Py.str_is (Py.dget nd "class_type") ty
  | _ => false
  end.

(** The second loop passes over the entry: it is not a
    TextEncodeQwenImageEdit dict, or its inputs are a dict without
    "prompt". *)
Definition qwen_passed (v : json) : bool :=
  match v with
  | JDict nd =>
      negb (Py.str_is (Py.dget nd "class_type") "TextEncodeQwenImageEdit")
      || match Py.lookup nd "inputs" with
         | None => true
         | Some (JDict ins) =>
             match Py.lookup ins "prompt" with
             | Some _ => false
             | None => true
             end
         | Some _ => false
         end
  | _ => true
  end.

Definition not_wan_encode (kv : string * json) : bool :=
  negb (is_class "WanVideoTextEncode" (snd kv)).

(** A flat document with a single-prompt editor entry. *)
Definition api_qwen_entries : list (string * json) :=
  [ ("3", JDict [ ("class_type", JStr "KSampler");
                  ("inputs", JDict [("seed", JInt 7)]) ]);
    ("76", JDict [ ("class_type", JStr "TextEncodeQwenImageEdit");
                   ("inputs", JDict [("prompt", JStr "make it snow")]) ]) ].

Definition doc_api_qwen : json := JDict api_qwen_entries.

(** ** The remaining entry point *)

(** [extract_specific_prompt_from_json_data]: the positive prompt if it is
    truthy, else the negative prompt if it is truthy, else [None]. *)
Definition extract_specific_prompt_from_json_data (workflow : json)
  : res json :=
  prompts <- extract_prompts workflow ;;
  if Py.truthy (fst prompts) then Ok (fst prompts)
  else if Py.truthy (snd prompts) then Ok (snd prompts)
  else Ok JNull.

(** *** Vocabulary for the node store *)

(** What the comprehension stores for an entry of "nodes": its id and its
    entries. *)
Definition stored (n : json) : option (json * node) :=
  match n with
  | JDict e =>
      match Py.lookup e "id" with
      | Some id => if Py.hashable id then Some (id, e) else None
      | None => None
      end
  | _ => None
  end.

(** The entry is stored under a key equal to [k]. *)
Definition has_id (k : json) (n : json) : bool :=
  match stored n with
  | Some (id, _) => Py.key_eq k id
  | None => false
  end.

(** The declared input carries the given name. *)
Definition input_named (name : string) (inp : json) : bool :=
  match Py.get inp "name" with
  | Ok v => Py.str_is v name
  | Raise _ => false
  end.

(** The node's type tag is one of the given types. *)
Definition of_type (types : list string) (n : node) : bool :=
  Py.in_strs (Py.dget n "type") types.

(** Two objects with the same id, and a sampler whose inputs repeat a
    name. *)
Definition doc_duplicates : json :=
  graph_doc
    [ node_obj 7 "CLIPTextEncode" [] [JStr "first"];
      node_obj 8 "KSampler" ["negative"; "positive"; "negative"] [];
      node_obj 7 "CLIPTextEncode" [] [JStr "second"] ]
    [].

(** Two standalone dual-prompt encoders after an unrelated node. *)
Definition doc_two_encoders : json :=
  graph_doc
    [ node_obj 4 "LoadImage" [] [JStr "cat.png"];
      node_obj 6 "WanVideoTextEncode" [] [JStr "a cat"; JStr "noise"];
      node_obj 5 "WanVideoTextEncode" [] [JStr "a dog"; JStr "blur"] ]
    [].

(** Two wired text_embeds samplers; only the second one leads to a
    WanVideoDecode node. *)
Definition doc_two_embeds_samplers : json :=
  graph_doc
    [ node_obj 1 "WanVideoTextEncode" [] [JStr "unused"; JStr "unused too"];
      node_obj 2 "WanVideoTextEncode" [] [JStr "a fox"; JStr "grain"];
      node_obj 10 "WanVideoSampler" ["model"; "text_embeds"] [];
      node_obj 11 "WanVideoSampler" ["model"; "text_embeds"] [];
      node_obj 12 "WanVideoSampler" ["model"; "text_embeds"] [];
      node_obj 20 "WanVideoDecode" ["samples"] [] ]
    [ editor_link 1 1 0 10 1 "WANVIDEOTEXTEMBEDS";
      editor_link 2 2 0 11 1 "WANVIDEOTEXTEMBEDS";
      editor_link 3 11 0 20 0 "LATENT" ].

(** The two-stage remainder of the pipeline once stage (a) has yielded
    nothing. *)
Definition after_posneg (g : UIGraph) : res prompts :=
  b <- stage_text_embeds g ;;
  match b with
  | Some r => Ok r
  | None => stage_fallback g
  end.

(** The node types any stage of the UI branch looks for. *)
Definition looked_for : list string :=
  KNOWN_POSNEG_SAMPLERS ++ KNOWN_TEXT_EMBEDS_SAMPLERS ++ ["WanVideoTextEncode"].

(** Nodes of no known type, and a link entry that cannot be read. *)
Definition doc_unknown_nodes : json :=
  graph_doc
    [ node_obj 1 "LoadImage" [] [JStr "cat.png"];
      node_obj 2 "VAEDecode" ["samples"] [];
      node_obj 3 "SaveImage" ["images"] [JStr "out"] ]
    [ editor_link 1 1 0 2 0 "IMAGE"; JList [JInt 7]; JNull ].

(** The graph of [doc_bridge] with the bridge numbered 0. *)
Definition doc_bridge_zero : json :=
  graph_doc
    [ node_obj 20 "CLIPTextEncode" [] [JStr "a castle at dawn"];
      node_obj 21 "CLIPTextEncode" [] [JStr " low quality"];
      node_obj 0 "WanVideoTextEmbedBridge" ["positive"; "negative"] [];
      node_obj 90 "WanVideoSampler" ["model"; "image_embeds"; "text_embeds"] [] ]
    [ editor_link 1 20 0 0 0 "CONDITIONING";
      editor_link 2 21 0 0 1 "CONDITIONING";
      editor_link 3 0 0 90 2 "WANVIDEOTEXTEMBEDS" ].

(** *** Walks over the link list *)

(** Some link entry leads from [a] to [b]: its field 1 equals [a] as a key
    and its field 3 is [b]. *)
Definition linked (Ls : list json) (a b : json) : Prop :=
  exists L src,
    In L Ls /\ Py.index L 1 = Ok src /\ Py.key_eq a src = true
    /\ Py.index L 3 = Ok b.

(** [walk Ls n a b]: [n] links, [n >= 1], lead from [a] to [b]. *)
Inductive walk (Ls : list json) : nat -> json -> json -> Prop :=
| walk_one (a b : json) : linked Ls a b -> walk Ls 1 a b
| walk_step (n : nat) (a b c : json) :
    linked Ls a b -> walk Ls n b c -> walk Ls (S n) a c.

(** The node stored under the id has an output type. *)
Definition is_output (g : UIGraph) (d : json) : bool :=
  Py.in_strs (Py.dget (node_or_empty g d) "type") OUTPUT_TYPES.

(** Every seen node is in the frontier or has all its successors seen. *)
Definition closed (Ls : list json) (q seen : list json) : Prop :=
  forall y z, in_seen y seen = true -> linked Ls y z ->
              in_seen y q = true \/ in_seen z seen = true.

(** No seen node other than the start has an output type. *)
Definition plain (g : UIGraph) (start_id : json) (seen : list json) : Prop :=
  forall y, in_seen y seen = true ->
            Py.key_eq y start_id = true \/ is_output g y = false.

(** The entry is one the flat branch looks for: a dict of one of the two
    class types. *)
Definition api_relevant (kv : string * json) : bool :=
  is_class "WanVideoTextEncode" (snd kv)
  || is_class "TextEncodeQwenImageEdit" (snd kv).

(** * Properties *)

(** ** Python primitives *)

Lemma key_eq_sym (a b : json) : Py.key_eq a b = Py.key_eq b a.
Proof.
  destruct a, b; simpl; try reflexivity;
    solve [apply Z.eqb_sym | apply String.eqb_sym].
Qed.

Lemma key_eq_trans (a b c : json) :
  Py.key_eq a b = true -> Py.key_eq b c = true -> Py.key_eq a c = true.
Proof.
  destruct a, b, c; simpl; try discriminate; try reflexivity;
    rewrite ?Z.eqb_eq, ?String.eqb_eq; congruence.
Qed.

Lemma key_eq_refl (a : json) : Py.hashable a = true -> Py.key_eq a a = true.
Proof.
  destruct a; simpl; try discriminate; intros _;
    rewrite ?Z.eqb_refl, ?String.eqb_refl; reflexivity.
Qed.

Lemma key_eq_hashable (a b : json) :
  Py.key_eq a b = true -> Py.hashable a = true /\ Py.hashable b = true.
Proof. destruct a, b; simpl; try discriminate; auto. Qed.

Lemma edge_key_eq_sym (a b : edge_key) : edge_key_eq a b = edge_key_eq b a.
Proof.
  unfold edge_key_eq.
  now rewrite (key_eq_sym (fst a)), (key_eq_sym (snd a)).
Qed.

Lemma edge_key_eq_trans (a b c : edge_key) :
  edge_key_eq a b = true -> edge_key_eq b c = true -> edge_key_eq a c = true.
Proof.
  unfold edge_key_eq. rewrite !andb_true_iff.
  intros [H1 H2] [H3 H4]; split; eapply key_eq_trans; eassumption.
Qed.

Lemma edge_key_eq_refl (a : edge_key) :
  edge_key_hashable a = true -> edge_key_eq a a = true.
Proof.
  unfold edge_key_hashable, edge_key_eq. rewrite !andb_true_iff.
  intros [H1 H2]; split; now apply key_eq_refl.
Qed.

(** ** Insertion-ordered dicts *)

Section DictFacts.
Context {K V : Type} (eqk : K -> K -> bool).
Hypothesis eqk_sym : forall a b, eqk a b = eqk b a.
Hypothesis eqk_trans :
  forall a b c, eqk a b = true -> eqk b c = true -> eqk a c = true.

Lemma eqk_congr (a b c : K) : eqk a b = true -> eqk c a = eqk c b.
Proof.
  intros Hab.
  destruct (eqk c a) eqn:Hca, (eqk c b) eqn:Hcb; try reflexivity.
  - rewrite (eqk_trans c a b Hca Hab) in Hcb. discriminate.
  - rewrite eqk_sym in Hab.
    rewrite (eqk_trans c b a Hcb Hab) in Hca. discriminate.
Qed.

(** Reading after a store: the stored key answers with the new value, any
    other key is unaffected. *)
Lemma dict_find_set (d : list (K * V)) (k k' : K) (v : V) :
  Py.dict_find eqk (Py.dict_set eqk d k' v) k
  = if eqk k k' then Some v else Py.dict_find eqk d k.
Proof.
  induction d as [|[k0 v0] r IH]; simpl.
  - reflexivity.
  - destruct (eqk k' k0) eqn:E0; simpl.
    + rewrite (eqk_congr k' k0 k E0).
      destruct (eqk k k0); reflexivity.
    + destruct (eqk k k0) eqn:E1.
      * destruct (eqk k k') eqn:E2; [|reflexivity].
        rewrite eqk_sym in E2.
        rewrite (eqk_trans k' k k0 E2 E1) in E0. discriminate.
      * apply IH.
Qed.

(** A store adds no key object other than the one stored. *)
Lemma dict_set_keys (d : list (K * V)) (k : K) (v : V) (k0 : K) (v0 : V) :
  In (k0, v0) (Py.dict_set eqk d k v) ->
  In k0 (map fst d) \/ k0 = k.
Proof.
  induction d as [|[k1 v1] r IH]; simpl.
  - intros [H|[]]. inversion H; auto.
  - destruct (eqk k k1); simpl.
    + intros [H|H].
      * inversion H; subst; auto.
      * left; right. apply (in_map fst _ _ H).
    + intros [H|H].
      * inversion H; subst; auto.
      * destruct (IH H) as [H'|H']; auto.
Qed.

(** A key that is found is present. *)
Lemma dict_find_in (d : list (K * V)) (k : K) (v : V) :
  Py.dict_find eqk d k = Some v ->
  exists k0, In (k0, v) d /\ eqk k k0 = true.
Proof.
  induction d as [|[k1 v1] r IH]; simpl; [discriminate|].
  destruct (eqk k k1) eqn:E.
  - intros H; inversion H; subst. exists k1; auto.
  - intros H. destruct (IH H) as (k0 & Hin & Hk). exists k0; auto.
Qed.

Lemma dict_find_none (d : list (K * V)) (k : K) :
  (forall k0 v0, In (k0, v0) d -> eqk k k0 = false) ->
  Py.dict_find eqk d k = None.
Proof.
  induction d as [|[k1 v1] r IH]; simpl; intros H; [reflexivity|].
  rewrite (H k1 v1 (or_introl eq_refl)). apply IH.
  intros k0 v0 Hin. apply (H k0 v0). now right.
Qed.

End DictFacts.

(** ** The reverse-edge index built by [__init__] *)

Lemma editor_link_accepted (id src ss dst ds : Z) (ty : string) :
  accepted (editor_link id src ss dst ds ty)
  = Some ((JInt dst, JInt ds), JInt src).
Proof. reflexivity. Qed.

(** Reading the index after one iteration of the scan. *)
Lemma find_scan_link (idx : list (edge_key * json)) (L : json) (k : edge_key) :
  Py.dict_find edge_key_eq (scan_link idx L) k
  = match accepted L with
    | Some (k', src) =>
        if edge_key_eq k k' then Some src
        else Py.dict_find edge_key_eq idx k
    | None => Py.dict_find edge_key_eq idx k
    end.
Proof.
  unfold scan_link, store_edge, accepted.
  destruct (link_fields L) as [[[src dst] slot]|e]; simpl; [|reflexivity].
  destruct (edge_key_hashable (dst, slot)); simpl; [|reflexivity].
  apply dict_find_set; [apply edge_key_eq_sym | apply edge_key_eq_trans].
Qed.

Lemma scan_untargeted (Ls : list json) (idx : list (edge_key * json))
  (k : edge_key) :
  (forall L, In L Ls -> targets k L = false) ->
  Py.dict_find edge_key_eq (fold_left scan_link Ls idx) k
  = Py.dict_find edge_key_eq idx k.
Proof.
  revert idx; induction Ls as [|L r IH]; intros idx H; simpl; [reflexivity|].
  rewrite IH by (intros L' HL'; apply H; now right).
  rewrite find_scan_link.
  specialize (H L (or_introl eq_refl)). unfold targets in H.
  destruct (accepted L) as [[k' src]|]; [|reflexivity].
  now rewrite H.
Qed.

(** Every key object of the index comes from a link the scan accepted. *)
Lemma scan_link_keys (idx : list (edge_key * json)) (L : json)
  (k : edge_key) (v : json) :
  In (k, v) (scan_link idx L) ->
  In k (map fst idx) \/ exists src, accepted L = Some (k, src).
Proof.
  unfold scan_link, store_edge, accepted.
  destruct (link_fields L) as [[[s d] sl]|e]; simpl.
  - destruct (edge_key_hashable (d, sl)); simpl.
    + intros H. apply dict_set_keys in H. destruct H as [H|H]; [now left|].
      right. exists s. now subst k.
    + intros H; left. apply (in_map fst _ _ H).
  - intros H; left. apply (in_map fst _ _ H).
Qed.

Lemma scan_keys (Ls : list json) (idx : list (edge_key * json))
  (k : edge_key) (v : json) :
  In (k, v) (fold_left scan_link Ls idx) ->
  In k (map fst idx) \/ exists L src, In L Ls /\ accepted L = Some (k, src).
Proof.
  revert idx; induction Ls as [|L r IH]; intros idx; simpl.
  - intros H; left. apply (in_map fst _ _ H).
  - intros H. destruct (IH _ H) as [Hk|(L' & src & HL' & Hacc)].
    + apply in_map_iff in Hk. destruct Hk as ([k0 v0] & Hfst & Hin).
      simpl in Hfst; subst k0.
      destruct (scan_link_keys _ _ _ _ Hin) as [Hold|[src Hacc]]; auto.
      right. exists L, src. auto.
    + right. exists L', src. auto.
Qed.

(** What [__init__] leaves in the object. *)
Lemma init_fields (wf : json) (g : UIGraph) :
  __init__ wf = Ok g ->
  exists ls Ls,
    Py.get_default wf "links" (JList []) = Ok ls
    /\ Py.iter ls = Ok Ls
    /\ links g = ls
    /\ in_edge g = build_in_edge Ls.
Proof.
  unfold __init__.
  destruct (Py.get_default wf "nodes" (JList [])) as [ns|]; simpl; [|discriminate].
  destruct (Py.iter ns) as [items|]; simpl; [|discriminate].
  destruct (build_nodes items []) as [nds|]; simpl; [|discriminate].
  destruct (Py.get_default wf "links" (JList [])) as [ls|]; simpl; [|discriminate].
  destruct (Py.iter ls) as [Ls|] eqn:HLs; simpl; [|discriminate].
  intros H; inversion H; subst; simpl.
  exists ls, Ls. auto.
Qed.

(** C1 (as the code has it). After construction the object keeps the
    document's link sequence and the reverse-edge index answers, for every
    destination key, with the source of the last link of that sequence that
    the left-to-right scan accepted under that key, an accepted link being
    one whose fields 1, 3 and 4 can be read and whose destination id and
    slot are hashable: if a link is followed by no later accepted link with
    the same (destination, slot), [src_for] returns its source, so of two
    links to one slot the later one wins.  A node that no accepted link
    feeds has no entry under its id, and [src_for] returns [None] for each
    of its slots; so it does for every key that no accepted link has. *)
Theorem in_edge_last_link_wins (wf : json) (g : UIGraph) (Ls : list json) :
  __init__ wf = Ok g ->
  Py.iter (links g) = Ok Ls ->
  Py.get_default wf "links" (JList []) = Ok (links g)
  /\ (forall pre L post k src d s,
      Ls = pre ++ L :: post ->
      accepted L = Some (k, src) ->
      edge_key_eq (d, s) k = true ->
      (forall L', In L' post -> targets (d, s) L' = false) ->
      src_for g d s = Ok src)
  /\ (forall d,
        (forall L, In L Ls -> feeds d L = false) ->
        (forall k v, In (k, v) (in_edge g) -> Py.key_eq d (fst k) = false)
        /\ (forall s, edge_key_hashable (d, s) = true ->
                      src_for g d s = Ok JNull))
  /\ (forall d s,
        edge_key_hashable (d, s) = true ->
        (forall L, In L Ls -> targets (d, s) L = false) ->
        src_for g d s = Ok JNull).
Proof.
  intros Hinit HLs.
  destruct (init_fields _ _ Hinit) as (ls & Ls' & Hget & Hiter & Hlinks & Hidx).
  split; [now rewrite Hlinks|].
  rewrite Hlinks, Hiter in HLs. inversion HLs; subst Ls'. clear HLs.
  assert (Hkeys : forall d, (forall L, In L Ls -> feeds d L = false) ->
            forall k v, In (k, v) (in_edge g) -> Py.key_eq d (fst k) = false).
  { intros d Hd k v Hin. rewrite Hidx in Hin.
    destruct (scan_keys _ _ _ _ Hin) as [[]|(L & src & HL & Hacc)].
    specialize (Hd L HL). unfold feeds in Hd. now rewrite Hacc in Hd. }
  split; [|split].
  - intros pre L post k src d s -> Hacc Hk Hpost.
    unfold src_for.
    assert (Hh : edge_key_hashable (d, s) = true).
    { unfold edge_key_eq in Hk. apply andb_true_iff in Hk. destruct Hk as [H1 H2].
      unfold edge_key_hashable. simpl in *.
      apply key_eq_hashable in H1, H2. now rewrite (proj1 H1), (proj1 H2). }
    rewrite Hh, Hidx. unfold build_in_edge.
    rewrite fold_left_app. simpl.
    rewrite scan_untargeted by exact Hpost.
    rewrite find_scan_link, Hacc, Hk. reflexivity.
  - intros d Hd. split; [exact (Hkeys d Hd)|].
    intros s Hh. unfold src_for. rewrite Hh.
    rewrite dict_find_none; [reflexivity|].
    intros k0 v0 Hin. unfold edge_key_eq. simpl.
    now rewrite (Hkeys d Hd k0 v0 Hin).
  - intros d s Hh Hnone. unfold src_for. rewrite Hh, Hidx.
    unfold build_in_edge. rewrite scan_untargeted by exact Hnone.
    reflexivity.
Qed.

Lemma in_edge_last_link_wins_witness :
  exists g,
    __init__ doc_rewired = Ok g
    /\ src_for g (JInt 101) (JInt 1) = Ok (JInt 76)
    /\ src_for g (JInt 76) (JInt 0) = Ok JNull.
Proof.
  eexists. split; [reflexivity|].
  destruct (in_edge_last_link_wins doc_rewired _ _ eq_refl eq_refl)
    as (_ & Hlast & Hnone & _).
  split.
  - apply (Hlast [editor_link 1 77 0 101 1 "CONDITIONING";
                  editor_link 2 77 0 101 2 "CONDITIONING"]
                 (editor_link 3 76 0 101 1 "CONDITIONING") []
                 (JInt 101, JInt 1) (JInt 76)); try reflexivity.
    intros L' [].
  - apply (Hnone (JInt 76)); [|reflexivity].
    intros L [<-|[<-|[<-|[]]]]; reflexivity.
Defined.

(** C1, counterexample: slot 1 of node 101 is fed by the editor-written
    link from node 77 and then by an entry of five fields whose source id
    is the string "x".  The scan stores the later entry as well, so the
    index answers "x" and not 77, the source of the last link of the
    editor's six-field, integer-id form. *)
Lemma unchecked_link_overrides :
  exists g,
    __init__ doc_overridden_link = Ok g
    /\ accepted (JList [JInt 2; JStr "x"; JInt 0; JInt 101; JInt 1])
       = Some ((JInt 101, JInt 1), JStr "x")
    /\ in_edge g = [ ((JInt 101, JInt 1), JStr "x") ]
    /\ src_for g (JInt 101) (JInt 1) = Ok (JStr "x").
Proof. eexists. repeat split; reflexivity. Qed.

(** ** Which documents construct, which links are indexed *)

Lemma store_node_ok (acc : list (json * node)) (n : json) :
  (exists acc', store_node acc n = Ok acc') <-> node_storable n = true.
Proof.
  unfold store_node, node_storable, Py.getitem.
  destruct n as [| | | |l|e]; simpl;
    try (split; [intros [? H]; discriminate H | discriminate]).
  destruct (Py.lookup e "id") as [id|]; simpl.
  - destruct (Py.hashable id); split; eauto; try discriminate.
    intros [? H]; discriminate H.
  - split; [intros [? H]; discriminate H | discriminate].
Qed.

Lemma build_nodes_ok (items : list json) (acc : list (json * node)) :
  (exists nds, build_nodes items acc = Ok nds)
  <-> forallb node_storable items = true.
Proof.
  revert acc; induction items as [|n r IH]; intros acc; simpl.
  - split; eauto.
  - rewrite andb_true_iff, <- (store_node_ok acc n). split.
    + intros [nds H].
      destruct (store_node acc n) as [acc'|] eqn:E; simpl in H; [|discriminate].
      split; [eauto|]. apply (IH acc'). eauto.
    + intros [[acc' E] Hr]. rewrite E; simpl. now apply IH.
Qed.

Lemma init_constructible (wf : json) :
  (exists g, __init__ wf = Ok g) <-> constructible wf = true.
Proof.
  unfold __init__, constructible, iterable.
  destruct wf as [| | | |l|d]; simpl;
    try (split; [intros [? H]; discriminate H | discriminate]).
  destruct (Py.iter _) as [items|]; simpl;
    [|split; [intros [? H]; discriminate H | discriminate]].
  rewrite andb_true_iff, <- (build_nodes_ok items []).
  destruct (build_nodes items []) as [nds|] eqn:E; simpl.
  - destruct (Py.iter (match Py.lookup d "links" with
                       | Some x => x | None => JList [] end)) as [Ls|]; simpl.
    + split; eauto.
    + split; [intros [? H]; discriminate H | intros [_ H]; discriminate H].
  - split; [intros [? H]; discriminate H | intros [[? H] _]; discriminate H].
Qed.

Lemma scan_link_cases (idx : list (edge_key * json)) (L : json) :
  scan_link idx L
  = match accepted L with
    | Some (k, src) => Py.dict_set edge_key_eq idx k src
    | None => idx
    end.
Proof.
  unfold scan_link, store_edge, accepted.
  destruct (link_fields L) as [[[src dst] slot]|e]; simpl; [|reflexivity].
  destruct (edge_key_hashable (dst, slot)); reflexivity.
Qed.

Lemma accepted_list (l : list json) :
  accepted (JList l)
  = match nth_error l 1, nth_error l 3, nth_error l 4 with
    | Some src, Some dst, Some slot =>
        if Py.hashable dst && Py.hashable slot
        then Some ((dst, slot), src) else None
    | _, _, _ => None
    end.
Proof.
  destruct l as [|a [|b [|c [|d [|e r]]]]]; reflexivity.
Qed.

Lemma build_skips_rejected (Ls : list json) (idx : list (edge_key * json)) :
  fold_left scan_link Ls idx = fold_left scan_link (filter is_accepted Ls) idx.
Proof.
  revert idx; induction Ls as [|L r IH]; intros idx; simpl; [reflexivity|].
  unfold is_accepted at 1.
  destruct (accepted L) as [[k src]|] eqn:E; simpl.
  - apply IH.
  - rewrite scan_link_cases, E. apply IH.
Qed.

Lemma scan_keeps_entries (Ls : list json) (idx : list (edge_key * json))
  (k : edge_key) :
  Py.dict_find edge_key_eq idx k <> None ->
  Py.dict_find edge_key_eq (fold_left scan_link Ls idx) k <> None.
Proof.
  revert idx; induction Ls as [|L r IH]; intros idx H; simpl; [exact H|].
  apply IH. rewrite find_scan_link.
  destruct (accepted L) as [[k' src]|]; [|exact H].
  destruct (edge_key_eq k k'); [discriminate | exact H].
Qed.

Lemma accepted_key_hashable (L : json) (k : edge_key) (src : json) :
  accepted L = Some (k, src) -> edge_key_hashable k = true.
Proof.
  unfold accepted.
  destruct (link_fields L) as [[[s d] sl]|e]; [|discriminate].
  destruct (edge_key_hashable (d, sl)) eqn:E; [|discriminate].
  intros H; inversion H; subst; exact E.
Qed.

Lemma accepted_indexed (Ls : list json) (L : json) (k : edge_key)
  (src : json) :
  In L Ls -> accepted L = Some (k, src) ->
  exists src', Py.dict_find edge_key_eq (build_in_edge Ls) k = Some src'.
Proof.
  intros Hin Hacc.
  destruct (in_split _ _ Hin) as (pre & post & ->).
  unfold build_in_edge. rewrite fold_left_app; simpl.
  assert (H : Py.dict_find edge_key_eq
                (fold_left scan_link post
                   (scan_link (fold_left scan_link pre []) L)) k <> None).
  { apply scan_keeps_entries. rewrite find_scan_link, Hacc.
    rewrite edge_key_eq_refl by (eapply accepted_key_hashable; eauto).
    discriminate. }
  destruct (Py.dict_find _ _ k) as [s|]; [eauto | contradiction].
Qed.

(** C7 (as the code has it). Construction succeeds exactly on the
    documents of the right top-level shape: a dict whose "nodes" iterate
    over objects with a hashable id and whose "links" can be iterated; no
    link entry can make it fail.  The scan skips a link entry exactly when
    reading its fields 1, 3 and 4 or hashing its destination key raises,
    leaving the index as it was, and stores every other entry: a list is
    stored as soon as it has five fields with a hashable destination id and
    slot, whatever the types of its ids and whatever its length beyond
    five.  Skipped entries contribute nothing, and every accepted link of
    the sequence has an entry under its key. *)
Theorem link_scan_skips_only_unreadable :
  (forall wf, (exists g, __init__ wf = Ok g) <-> constructible wf = true)
  /\ (forall idx L,
        scan_link idx L
        = match accepted L with
          | Some (k, src) => Py.dict_set edge_key_eq idx k src
          | None => idx
          end)
  /\ (forall l,
        accepted (JList l)
        = match nth_error l 1, nth_error l 3, nth_error l 4 with
          | Some src, Some dst, Some slot =>
              if Py.hashable dst && Py.hashable slot
              then Some ((dst, slot), src) else None
          | _, _, _ => None
          end)
  /\ (forall Ls, build_in_edge Ls = build_in_edge (filter is_accepted Ls))
  /\ (forall Ls L k src,
        In L Ls -> accepted L = Some (k, src) ->
        exists src',
          Py.dict_find edge_key_eq (build_in_edge Ls) k = Some src').
Proof.
  split; [exact init_constructible|].
  split; [exact scan_link_cases|].
  split; [exact accepted_list|].
  split; [intros Ls; apply build_skips_rejected|].
  exact accepted_indexed.
Qed.

Lemma link_scan_skips_only_unreadable_witness :
  (exists g, __init__ doc_rewired = Ok g)
  /\ exists src',
       Py.dict_find edge_key_eq
         (build_in_edge [editor_link 1 77 0 101 1 "CONDITIONING"; JList [JInt 7]])
         (JInt 101, JInt 1) = Some src'.
Proof.
  destruct link_scan_skips_only_unreadable as (Hc & _ & _ & _ & Hin).
  split.
  - apply (proj2 (Hc doc_rewired)). reflexivity.
  - apply (Hin _ (editor_link 1 77 0 101 1 "CONDITIONING") _ (JInt 77)).
    + now left.
    + reflexivity.
Defined.

(** C7, counterexample: a link whose ids are strings and a link of five
    fields are both indexed; only the one-field entry is skipped. *)
Lemma odd_links_are_indexed :
  exists g,
    __init__ doc_odd_links = Ok g
    /\ in_edge g = [ ((JStr "b", JInt 0), JStr "a");
                     ((JInt 4, JInt 1), JInt 3) ].
Proof. eexists. split; reflexivity. Qed.

(** ** Sampler selection *)

(** The first loop keeps exactly the nodes its test accepts, in the order
    of the node store. *)
Lemma collect_filter (keep : node -> res bool) (ns l : list node) :
  collect keep ns = Ok l -> l = filter (kept keep) ns.
Proof.
  revert l; induction ns as [|n r IH]; simpl; intros l H.
  - now inversion H.
  - unfold kept at 1.
    destruct (keep n) as [b|]; simpl in H; [|discriminate].
    destruct (collect keep r) as [tl|]; simpl in H; [|discriminate].
    inversion H; subst. rewrite (IH tl eq_refl). reflexivity.
Qed.

Lemma first_reaching_cons (g : UIGraph) (c : node) (rest : list node) :
  first_reaching g (c :: rest)
  = (b <- candidate_reaches g c ;;
     if b then Ok (Some c) else first_reaching g rest).
Proof.
  unfold candidate_reaches; simpl.
  destruct (node_id c); reflexivity.
Qed.

Lemma first_reaching_skip (g : UIGraph) (pre rest : list node) :
  (forall p, In p pre -> candidate_reaches g p = Ok false) ->
  first_reaching g (pre ++ rest) = first_reaching g rest.
Proof.
  induction pre as [|p r IH]; intros H; [reflexivity|].
  rewrite <- app_comm_cons, first_reaching_cons.
  rewrite (H p (or_introl eq_refl)); simpl.
  apply IH. intros q Hq. apply H. now right.
Qed.

Lemma select_reaching (g : UIGraph) (pre : list node) (c : node)
  (post : list node) :
  (forall p, In p pre -> candidate_reaches g p = Ok false) ->
  candidate_reaches g c = Ok true ->
  select g (pre ++ c :: post) = Ok (Some c).
Proof.
  intros Hpre Hc. unfold select.
  rewrite (first_reaching_skip g pre (c :: post) Hpre).
  rewrite first_reaching_cons, Hc. reflexivity.
Qed.

Lemma select_none_reaching (g : UIGraph) (cands : list node) :
  (forall c, In c cands -> candidate_reaches g c = Ok false) ->
  select g cands = Ok (hd_error cands).
Proof.
  intros H. unfold select.
  rewrite <- (app_nil_r cands) at 1.
  rewrite (first_reaching_skip g cands [] H). reflexivity.
Qed.

(** C4. The candidates are the qualifying nodes in the iteration order of
    the node store.  If some candidate reaches an output node (and the ones
    before it do not), that candidate is selected, wherever it stands; if
    no candidate reaches an output node, the first candidate is selected.
    The choice is a function of the graph. *)
Theorem posneg_selection_prefers_reaching (g : UIGraph) (cands : list node) :
  posneg_candidates g = Ok cands ->
  cands = filter (kept (posneg_candidate g)) (Py.dict_values (nodes g))
  /\ (forall pre c post,
        cands = pre ++ c :: post ->
        (forall p, In p pre -> candidate_reaches g p = Ok false) ->
        candidate_reaches g c = Ok true ->
        sampler_with_posneg g = Ok (Some c))
  /\ ((forall c, In c cands -> candidate_reaches g c = Ok false) ->
      sampler_with_posneg g = Ok (hd_error cands)).
Proof.
  intros Hc. split; [|split].
  - apply collect_filter. exact Hc.
  - intros pre c post -> Hpre Hreach.
    unfold sampler_with_posneg. rewrite Hc; simpl.
    now apply select_reaching.
  - intros Hnone. unfold sampler_with_posneg. rewrite Hc; simpl.
    now apply select_none_reaching.
Qed.

Lemma posneg_selection_prefers_reaching_witness :
  (__init__ doc_two_samplers = Ok (graph_of doc_two_samplers)
   /\ sampler_with_posneg (graph_of doc_two_samplers)
      = Ok (Some (node_entries 2 "KSampler" ["positive"; "negative"] [])))
  /\ (__init__ doc_two_orphans = Ok (graph_of doc_two_orphans)
      /\ sampler_with_posneg (graph_of doc_two_orphans)
         = Ok (Some (node_entries 1 "KSampler" ["positive"; "negative"] []))).
Proof.
  split; (split; [reflexivity|]).
  - apply (proj1 (proj2 (posneg_selection_prefers_reaching
                           (graph_of doc_two_samplers)
                           [node_entries 1 "KSampler" ["positive"; "negative"] [];
                            node_entries 2 "KSampler" ["positive"; "negative"] []]
                           eq_refl))
              [node_entries 1 "KSampler" ["positive"; "negative"] []]
              _ []).
    + reflexivity.
    + intros p [<-|[]]. reflexivity.
    + reflexivity.
  - apply (proj2 (proj2 (posneg_selection_prefers_reaching
                           (graph_of doc_two_orphans)
                           [node_entries 1 "KSampler" ["positive"; "negative"] [];
                            node_entries 2 "KSampler" ["positive"; "negative"] []]
                           eq_refl))).
    intros c [<-|[<-|[]]]; reflexivity.
Defined.

(** ** Normalization *)

Lemma lstrip_head (s : string) :
  Py.lstrip s = EmptyString
  \/ exists c r, Py.lstrip s = String c r /\ Py.is_space c = false.
Proof.
  induction s as [|c r IH]; simpl; [now left|].
  destruct (Py.is_space c) eqn:E; [exact IH|].
  right. exists c, r. auto.
Qed.

Lemma rstrip_head (c : ascii) (r : string) :
  Py.is_space c = false -> exists r', Py.rstrip (String c r) = String c r'.
Proof.
  intros E; simpl. destruct (Py.rstrip r); rewrite ?E; eauto.
Qed.

(** A stripped string is empty or not blank. *)
Lemma strip_not_blank (s : string) :
  Py.strip s = EmptyString \/ Py.blank (Py.strip s) = false.
Proof.
  unfold Py.strip.
  destruct (lstrip_head s) as [->|(c & r & -> & E)]; [now left|].
  destruct (rstrip_head c r E) as [r' ->].
  right; simpl. now rewrite E.
Qed.

(** What [_norm] returns is absent or a string that is not blank. *)
Lemma norm_never_blank (v r : json) :
  _norm v = Ok r -> r = JNull \/ exists t, r = JStr t /\ Py.blank t = false.
Proof.
  unfold _norm. destruct (Py.or_ v (JStr "")) as [| | |t| |]; try discriminate.
  intros H; inversion H; subst; clear H.
  unfold Py.or_; simpl.
  destruct (strip_not_blank t) as [E|E].
  - rewrite E; simpl. now left.
  - destruct (Py.strip t) eqn:Et; [discriminate E|].
    simpl. right. eexists; split; [reflexivity | exact E].
Qed.

Lemma norm_textual (v : json) :
  textual v = true -> exists r, _norm v = Ok r.
Proof.
  unfold textual, _norm, Py.or_.
  destruct (Py.truthy v) eqn:Et; simpl.
  - destruct v; try discriminate. eauto.
  - eauto.
Qed.

Lemma norm_not_textual (v : json) :
  textual v = false -> _norm v = Raise AttributeError.
Proof.
  unfold textual, _norm, Py.or_.
  destruct (Py.truthy v) eqn:Et; simpl; [|discriminate].
  destruct v; simpl; try discriminate; reflexivity.
Qed.

Lemma norm_absent : _norm JNull = Ok JNull.
Proof. reflexivity. Qed.

(** ** The encoder text reader *)

Lemma reader_lookup_cons (k : string) (r : reader)
  (rest : list (string * reader)) (ty : string) :
  reader_lookup ((k, r) :: rest) ty
  = if (k =? ty)%string then Some r else reader_lookup rest ty.
Proof. reflexivity. Qed.

Lemma reader_for_position (node_type : json) (r : reader) :
  reader_for node_type = Ok (Some r) ->
  forall n w which,
    r n w which = _norm (_safe_get w (rule_position node_type which)).
Proof.
  unfold reader_for.
  destruct node_type as [| | |ty| |]; try discriminate.
  cbv beta iota delta [Py.hashable ENCODER_READERS].
  rewrite !reader_lookup_cons.
  destruct (String.eqb_spec "CLIPTextEncode" ty) as [<-|_].
  { intros H; inversion H; subst. reflexivity. }
  destruct (String.eqb_spec "TextEncodeQwenImageEdit" ty) as [<-|_].
  { intros H; inversion H; subst. reflexivity. }
  destruct (String.eqb_spec "WanVideoTextEncode" ty) as [<-|_];
    [|discriminate].
  intros H; inversion H; subst. intros n w which.
  unfold rule_position.
  replace (Py.str_is (JStr "WanVideoTextEncode") "WanVideoTextEncode")
    with true by reflexivity.
  destruct (Py.str_is which "negative"); reflexivity.
Qed.

(** The reader in equations: absent id, no reader, or [_norm] of the
    widget at the rule's position. *)
Lemma read_text_cases (g : UIGraph) (nid which : json) :
  Py.hashable nid = true ->
  Py.hashable (Py.dget (node_or_empty g nid) "type") = true ->
  read_text_from_node g nid which
  = if is_not_none nid then
      match reader_for (Py.dget (node_or_empty g nid) "type") with
      | Ok (Some _) => _norm (widget_read g nid which)
      | _ => Ok JNull
      end
    else Ok JNull.
Proof.
  intros Hn Ht. unfold read_text_from_node, widget_read.
  destruct nid; try discriminate Hn; try reflexivity;
    simpl Py.hashable; cbv iota; simpl is_not_none; cbv iota;
    (destruct (reader_for _) as [[r|]|e] eqn:E; simpl;
     [ apply (reader_for_position _ _ E)
     | reflexivity
     | unfold reader_for in E; rewrite Ht in E; discriminate E ]).
Qed.

Lemma read_text_never_blank (g : UIGraph) (nid which r : json) :
  read_text_from_node g nid which = Ok r ->
  r = JNull \/ exists t, r = JStr t /\ Py.blank t = false.
Proof.
  unfold read_text_from_node.
  assert (H0 : Ok JNull = Ok r ->
               r = JNull \/ exists t, r = JStr t /\ Py.blank t = false).
  { intros H; inversion H; now left. }
  destruct nid; simpl; try exact H0; try discriminate;
    (destruct (reader_for _) as [[rd|]|e] eqn:E; simpl;
     [ rewrite (reader_for_position _ _ E); apply norm_never_blank
     | exact H0 | discriminate ]).
Qed.

Lemma safe_get_not_list (w : json) (i : nat) :
  (forall l, w <> JList l) -> _safe_get w i = JNull.
Proof.
  destruct w; try reflexivity. intros H. now destruct (H l).
Qed.

Lemma safe_get_out_of_range (l : list json) (i : nat) :
  length l <= i -> _safe_get (JList l) i = JNull.
Proof.
  intros H; simpl. now rewrite (proj2 (nth_error_None l i) H).
Qed.

(** The reader on the inputs it handles. For a hashable node id and a
    node whose type tag is hashable, the reader returns without raising whenever the
    widget at the rule's position is falsy or a string, and what it returns
    is absent or a string that is not blank.  It yields absent when the id
    is absent or not in the node store, when the type has no registered
    reader, when widgets_values is missing or not a list, and when the
    rule's position is out of range.  With a registered reader and a truthy
    widget that is not a string it raises [AttributeError]. *)
Theorem read_text_from_node_safe (g : UIGraph) (nid which : json) :
  Py.hashable nid = true ->
  Py.hashable (Py.dget (node_or_empty g nid) "type") = true ->
  (textual (widget_read g nid which) = true ->
   exists r,
     read_text_from_node g nid which = Ok r
     /\ (r = JNull \/ exists t, r = JStr t /\ Py.blank t = false))
  /\ (nid = JNull -> read_text_from_node g nid which = Ok JNull)
  /\ (Py.dict_find Py.key_eq (nodes g) nid = None ->
      read_text_from_node g nid which = Ok JNull)
  /\ (reader_for (Py.dget (node_or_empty g nid) "type") = Ok None ->
      read_text_from_node g nid which = Ok JNull)
  /\ ((forall l, Py.dget (node_or_empty g nid) "widgets_values" <> JList l) ->
      read_text_from_node g nid which = Ok JNull)
  /\ (forall l,
        Py.dget (node_or_empty g nid) "widgets_values" = JList l ->
        length l <= rule_position (Py.dget (node_or_empty g nid) "type") which ->
        read_text_from_node g nid which = Ok JNull)
  /\ (forall r,
        nid <> JNull ->
        reader_for (Py.dget (node_or_empty g nid) "type") = Ok (Some r) ->
        textual (widget_read g nid which) = false ->
        read_text_from_node g nid which = Raise AttributeError).
Proof.
  intros Hn Ht.
  pose proof (read_text_cases g nid which Hn Ht) as Hcases.
  assert (Habsent : widget_read g nid which = JNull ->
                    read_text_from_node g nid which = Ok JNull).
  { intros E. rewrite Hcases, E.
    destruct (is_not_none nid); [|reflexivity].
    destruct (reader_for _) as [[r|]|e]; reflexivity. }
  split; [|split; [|split; [|split; [|split; [|split]]]]].
  - intros Hw. destruct (norm_textual _ Hw) as [r Hr].
    assert (E : exists r', read_text_from_node g nid which = Ok r').
    { rewrite Hcases. destruct (is_not_none nid); eauto.
      destruct (reader_for _) as [[rd|]|e]; eauto. }
    destruct E as [r' Hr']. exists r'. split; [exact Hr'|].
    eapply read_text_never_blank; eassumption.
  - intros ->. reflexivity.
  - intros Hnone. rewrite Hcases.
    unfold node_or_empty. rewrite Hnone.
    destruct (is_not_none nid); reflexivity.
  - intros Hrd. rewrite Hcases, Hrd.
    destruct (is_not_none nid); reflexivity.
  - intros Hw. apply Habsent. unfold widget_read.
    now apply safe_get_not_list.
  - intros l Hw Hlen. apply Habsent. unfold widget_read. rewrite Hw.
    now apply safe_get_out_of_range.
  - intros r Hnid Hrd Hw.
    rewrite Hcases, Hrd, (norm_not_textual _ Hw).
    destruct nid; try reflexivity. now destruct Hnid.
Qed.

Lemma read_text_from_node_safe_witness :
  exists r,
    read_text_from_node (graph_of doc_rewired) (JInt 76) (JStr "positive")
    = Ok r
    /\ (r = JNull \/ exists t, r = JStr t /\ Py.blank t = false).
Proof.
  apply (proj1 (read_text_from_node_safe (graph_of doc_rewired) (JInt 76)
                  (JStr "positive") eq_refl eq_refl)).
  reflexivity.
Defined.

(** C10, at a failing input: an encoder whose first widget is the number
    7 makes the reader raise, and the pipeline with it, the sampler being
    wired to that encoder. *)
Theorem numeric_widget_raises :
  __init__ doc_numeric_widget = Ok (graph_of doc_numeric_widget)
  /\ read_text_from_node (graph_of doc_numeric_widget) (JInt 1)
       (JStr "positive") = Raise AttributeError
  /\ extract_prompts doc_numeric_widget = Raise AttributeError.
Proof. repeat split; reflexivity. Qed.

(** ** Where the pipeline leaves its own pattern *)

(** C3, at a failing input: the standalone dual-prompt encoder's widget
    texts are returned as they are, an empty string and a string of two
    spaces, although the registered reader of the same node type
    normalizes both to absent. *)
Theorem fallback_returns_blank_strings :
  extract_prompts doc_blank_encoder = Ok (JStr "", JStr "  ")
  /\ read_text_from_node (graph_of doc_blank_encoder) (JInt 1)
       (JStr "positive") = Ok JNull
  /\ read_text_from_node (graph_of doc_blank_encoder) (JInt 1)
       (JStr "negative") = Ok JNull.
Proof. repeat split; reflexivity. Qed.

(** C9, at a failing input: the flat branch returns the input fields
    untouched, a padded string and an empty string, where normalization
    gives "hi" and absent. *)
Theorem api_fields_not_normalized :
  extract_prompts doc_api_padded = Ok (JStr "  hi ", JStr "")
  /\ _norm (JStr "  hi ") = Ok (JStr "hi")
  /\ _norm (JStr "") = Ok JNull.
Proof. repeat split; reflexivity. Qed.

(** C2, at a failing input: the text_embeds stage, finding a dual-prompt
    encoder without widget values at the sampler's source, returns the
    absent pair at once, although the fallback stage would have found the
    texts of the first dual-prompt encoder. *)
Theorem text_embeds_stage_returns_nothing :
  __init__ doc_empty_wired_encoder = Ok (graph_of doc_empty_wired_encoder)
  /\ stage_posneg (graph_of doc_empty_wired_encoder) = Ok None
  /\ stage_text_embeds (graph_of doc_empty_wired_encoder)
     = Ok (Some (JNull, JNull))
  /\ stage_fallback (graph_of doc_empty_wired_encoder)
     = Ok (JStr "hello", JStr "bad")
  /\ extract_prompts doc_empty_wired_encoder = Ok (JNull, JNull).
Proof. repeat split; reflexivity. Qed.

(** C6, at a failing input: construction skips the one-field link entry,
    but the reachability check reads fields 1 and 3 of every entry without
    a handler and raises, and so does the pipeline. *)
Theorem reaches_output_raises_on_short_link :
  __init__ doc_short_link = Ok (graph_of doc_short_link)
  /\ in_edge (graph_of doc_short_link) = [((JInt 2, JInt 0), JInt 1)]
  /\ _reaches_output (graph_of doc_short_link) (JInt 2) default_max_hops
     = Raise IndexError
  /\ extract_prompts doc_short_link = Raise IndexError.
Proof. repeat split; reflexivity. Qed.

(** ** Partially wired samplers *)

Lemma index_of_name_has_name (ins names : list json) (name : string)
  (k i : nat) :
  input_names ins = Ok names ->
  index_of_name ins name k = Ok (Some i) ->
  has_name name names = true.
Proof.
  revert names k; induction ins as [|inp r IH]; intros names k; simpl.
  - discriminate.
  - destruct (Py.get inp "name") as [nm|]; simpl; [|discriminate].
    destruct (input_names r) as [tl|]; simpl; [|discriminate].
    intros H; inversion H; subst names; clear H.
    unfold has_name; simpl.
    destruct (Py.str_is nm name); [reflexivity|].
    intros H. simpl. exact (IH tl (S k) eq_refl H).
Qed.

Lemma collect_in (keep : node -> res bool) (ns l : list node) (n : node) :
  collect keep ns = Ok l -> In n ns -> keep n = Ok true -> In n l.
Proof.
  intros Hc Hin Hk. rewrite (collect_filter _ _ _ Hc).
  apply filter_In. split; [exact Hin|]. unfold kept. now rewrite Hk.
Qed.

Lemma node_id_truthy (n : node) (id : json) :
  node_id n = Ok id -> node_truthy n = true.
Proof. destruct n; [discriminate | reflexivity]. Qed.

Lemma not_blank_truthy (t : string) :
  Py.blank t = false -> Py.truthy (JStr t) = true.
Proof. destruct t; [discriminate | reflexivity]. Qed.

(** C5 (as the code has it). A sampler of an allow-listed type that
    declares "positive" and "negative", whose negative slot has a source
    and whose positive slot has none, qualifies as a candidate of mode 1
    (one wired input is enough) and is among the candidates; when it is the
    sampler mode 1 selects and the reader finds text at the negative
    source, the pipeline returns that normalized text as negative and
    absent as positive. *)
Theorem negative_only_sampler_resolves
  (d : list (string * json)) (ns : json) (g : UIGraph) (n : node)
  (ins names : list json) (id nsrc : json) (pi ni : nat) (t : string) :
  Py.lookup d "nodes" = Some ns ->
  __init__ (JDict d) = Ok g ->
  In n (Py.dict_values (nodes g)) ->
  Py.in_strs (Py.dget n "type") KNOWN_POSNEG_SAMPLERS = true ->
  declared_inputs n = Ok ins ->
  input_names ins = Ok names ->
  input_index n "positive" = Ok (Some pi) ->
  input_index n "negative" = Ok (Some ni) ->
  node_id n = Ok id ->
  src_for g id (JInt (Z.of_nat pi)) = Ok JNull ->
  src_for g id (JInt (Z.of_nat ni)) = Ok nsrc ->
  nsrc <> JNull ->
  posneg_candidate g n = Ok true
  /\ (forall cands, posneg_candidates g = Ok cands -> In n cands)
  /\ (sampler_with_posneg g = Ok (Some n) ->
      read_text_from_node g nsrc (JStr "negative") = Ok (JStr t) ->
      extract_prompts (JDict d) = Ok (JNull, JStr t)).
Proof.
  intros Hns Hinit Hin Hty Hins Hnames Hpi Hni Hid Hpos Hneg Hwired.
  assert (Hcand : posneg_candidate g n = Ok true).
  { unfold posneg_candidate. rewrite Hty; simpl negb; cbv iota.
    rewrite Hins; cbn [bind]. rewrite Hnames; cbn [bind].
    unfold input_index in Hpi, Hni. rewrite Hins in Hpi, Hni.
    cbn [bind] in Hpi, Hni.
    rewrite (index_of_name_has_name _ _ _ _ _ Hnames Hpi).
    rewrite (index_of_name_has_name _ _ _ _ _ Hnames Hni).
    cbn [andb]. unfold input_index. rewrite Hins; cbn [bind].
    rewrite Hpi, Hni; cbn [bind]. rewrite Hid; cbn [bind slot_value].
    rewrite Hpos, Hneg; cbn [bind].
    destruct nsrc; try reflexivity. now destruct Hwired. }
  split; [exact Hcand|]. split.
  - intros cands Hc. unfold posneg_candidates in Hc.
    eapply collect_in; eassumption.
  - intros Hsel Htext.
    unfold extract_prompts. rewrite Hns, Hinit; cbn [bind].
    unfold extract_ui, stage_posneg. rewrite Hsel; cbn [bind].
    rewrite (node_id_truthy _ _ Hid), Hid; cbn [bind].
    unfold read_posneg. rewrite Hpi, Hni; cbn [bind].
    unfold src_of_input. rewrite Hid; cbn [bind].
    rewrite Hpos, Hneg; cbn [bind].
    rewrite Htext.
    replace (read_text_from_node g JNull (JStr "positive")) with (Ok JNull)
      by reflexivity.
    cbn [bind]. unfold return_if_any; cbn [fst snd].
    destruct (read_text_never_blank _ _ _ _ Htext) as [E|(t' & E & Hb)];
      [discriminate E|].
    inversion E; subst t'.
    rewrite (not_blank_truthy _ Hb). reflexivity.
Qed.

Lemma negative_only_sampler_resolves_witness :
  posneg_candidate (graph_of doc_negative_only)
    (node_entries 9 "KSampler" ["model"; "positive"; "negative"] []) = Ok true
  /\ extract_prompts doc_negative_only = Ok (JNull, JStr "blurry, ugly").
Proof.
  pose proof (negative_only_sampler_resolves
                [("nodes",
                  JList [ node_obj 5 "CLIPTextEncode" [] [JStr "blurry, ugly "];
                          node_obj 9 "KSampler"
                            ["model"; "positive"; "negative"] [] ]);
                 ("links", JList [ editor_link 1 5 0 9 2 "CONDITIONING" ])]
                _ (graph_of doc_negative_only)
                (node_entries 9 "KSampler" ["model"; "positive"; "negative"] [])
                _ _ (JInt 9) (JInt 5) 1 2 "blurry, ugly"
                eq_refl eq_refl (or_intror (or_introl eq_refl)) eq_refl
                eq_refl eq_refl eq_refl eq_refl eq_refl eq_refl eq_refl)
    as H.
  destruct H as (Hq & _ & Hres); [discriminate|].
  split; [exact Hq|].
  apply Hres; reflexivity.
Defined.

(** C5, counterexample: sampler 11 has only its "negative" input wired,
    to an encoder holding "dark", and qualifies; but sampler 10 comes first
    among the candidates and none reaches an output, so the pipeline
    returns the texts of sampler 10. *)
Lemma other_sampler_preferred :
  posneg_candidate (graph_of doc_partial_second)
    (node_entries 11 "KSampler" ["positive"; "negative"] []) = Ok true
  /\ src_for (graph_of doc_partial_second) (JInt 11) (JInt 0) = Ok JNull
  /\ src_for (graph_of doc_partial_second) (JInt 11) (JInt 1) = Ok (JInt 3)
  /\ read_text_from_node (graph_of doc_partial_second) (JInt 3)
       (JStr "negative") = Ok (JStr "dark")
  /\ extract_prompts doc_partial_second = Ok (JStr "a cat", JStr "blurry").
Proof. repeat split; reflexivity. Qed.

(** ** Bridge nodes *)

Lemma dict_find_key_hashable (nds : list (json * node)) (k : json) (n : node) :
  Py.dict_find Py.key_eq nds k = Some n -> Py.hashable k = true.
Proof.
  intros H. destruct (dict_find_in _ _ _ _ H) as (k0 & _ & Hk).
  exact (proj1 (key_eq_hashable _ _ Hk)).
Qed.

(** A bridge node has no reader: reading it gives absent. *)
Lemma bridge_has_no_text (g : UIGraph) (x which : json) (bx : node) :
  Py.dict_find Py.key_eq (nodes g) x = Some bx ->
  Py.str_is (Py.dget bx "type") "WanVideoTextEmbedBridge" = true ->
  read_text_from_node g x which = Ok JNull.
Proof.
  intros Hf Hty.
  assert (Hx := dict_find_key_hashable _ _ _ Hf).
  assert (Hn : node_or_empty g x = bx) by (unfold node_or_empty; now rewrite Hf).
  assert (Et : Py.dget bx "type" = JStr "WanVideoTextEmbedBridge").
  { destruct (Py.dget bx "type"); try discriminate Hty.
    simpl in Hty. apply String.eqb_eq in Hty. now subst. }
  rewrite read_text_cases; rewrite ?Hn, ?Et; try assumption; try reflexivity.
  destruct (is_not_none x); reflexivity.
Qed.

(** C8 (as the code has it). When the pos/neg stage yields nothing and
    the selected text_embeds sampler's source is a bridge node stored under
    a truthy id (the stage tests [if embeds_src:], so an id such as 0 is
    not followed), the resolver follows the bridge's inputs named
    "positive" and "negative" to their sources, reads those nodes with the
    matching hints and, if both reads return and one of the two texts is
    present, returns exactly that pair.  Reading a bridge node, this one or
    one found further upstream, gives absent: no text of a bridge is ever
    returned and no second level is followed. *)
Theorem bridge_resolved_one_level
  (d : list (string * json)) (ns : json) (g : UIGraph) (s b : node)
  (sid bsrc psrc nsrc p n : json) (k : nat) (pi ni : option nat) :
  Py.lookup d "nodes" = Some ns ->
  __init__ (JDict d) = Ok g ->
  stage_posneg g = Ok None ->
  sampler_with_text_embeds g = Ok (Some s) ->
  node_id s = Ok sid ->
  input_index s "text_embeds" = Ok (Some k) ->
  src_for g sid (JInt (Z.of_nat k)) = Ok bsrc ->
  Py.truthy bsrc = true ->
  Py.dict_find Py.key_eq (nodes g) bsrc = Some b ->
  Py.str_is (Py.dget b "type") "WanVideoTextEmbedBridge" = true ->
  input_index b "positive" = Ok pi ->
  input_index b "negative" = Ok ni ->
  src_of_input g b pi = Ok psrc ->
  src_of_input g b ni = Ok nsrc ->
  read_text_from_node g psrc (JStr "positive") = Ok p ->
  read_text_from_node g nsrc (JStr "negative") = Ok n ->
  Py.truthy p || Py.truthy n = true ->
  extract_prompts (JDict d) = Ok (p, n)
  /\ (forall x bx which,
        Py.dict_find Py.key_eq (nodes g) x = Some bx ->
        Py.str_is (Py.dget bx "type") "WanVideoTextEmbedBridge" = true ->
        read_text_from_node g x which = Ok JNull).
Proof.
  intros Hns Hinit Ha Hsel Hsid Hk Hsrc Htr Hfind Hty Hpi Hni Hps Hnsrc Hp Hn Hany.
  split; [|intros x bx which; apply bridge_has_no_text].
  unfold extract_prompts. rewrite Hns, Hinit; cbn [bind].
  unfold extract_ui. rewrite Ha; cbn [bind].
  unfold stage_text_embeds. rewrite Hsel; cbn [bind].
  rewrite (node_id_truthy _ _ Hsid), Hsid; cbn [bind].
  rewrite Hk; cbn [bind]. unfold src_of_input at 1.
  rewrite Hsid; cbn [bind]. rewrite Hsrc; cbn [bind].
  rewrite Htr, (dict_find_key_hashable _ _ _ Hfind).
  replace (node_or_empty g bsrc) with b
    by (unfold node_or_empty; now rewrite Hfind).
  rewrite Hty. unfold read_posneg.
  rewrite Hpi, Hni; cbn [bind]. rewrite Hps, Hnsrc; cbn [bind].
  rewrite Hp, Hn; cbn [bind].
  unfold return_if_any; cbn [fst snd]. rewrite Hany. reflexivity.
Qed.

Lemma bridge_resolved_one_level_witness :
  extract_prompts doc_bridge
  = Ok (JStr "a castle at dawn", JStr "low quality")
  /\ read_text_from_node (graph_of doc_bridge) (JInt 30) (JStr "positive")
     = Ok JNull.
Proof.
  pose proof (bridge_resolved_one_level
                [("nodes",
                  JList
                    [ node_obj 20 "CLIPTextEncode" [] [JStr "a castle at dawn"];
                      node_obj 21 "CLIPTextEncode" [] [JStr " low quality"];
                      node_obj 30 "WanVideoTextEmbedBridge"
                        ["positive"; "negative"] [JStr "bridge widget"];
                      node_obj 90 "WanVideoSampler"
                        ["model"; "image_embeds"; "text_embeds"] [] ]);
                 ("links",
                  JList [ editor_link 1 20 0 30 0 "CONDITIONING";
                          editor_link 2 21 0 30 1 "CONDITIONING";
                          editor_link 3 30 0 90 2 "WANVIDEOTEXTEMBEDS" ])]
                _ (graph_of doc_bridge)
                (node_entries 90 "WanVideoSampler"
                   ["model"; "image_embeds"; "text_embeds"] [])
                (node_entries 30 "WanVideoTextEmbedBridge"
                   ["positive"; "negative"] [JStr "bridge widget"])
                (JInt 90) (JInt 30) (JInt 20) (JInt 21)
                (JStr "a castle at dawn") (JStr "low quality")
                2 (Some 0) (Some 1)
                eq_refl eq_refl eq_refl eq_refl eq_refl eq_refl eq_refl
                eq_refl eq_refl eq_refl eq_refl eq_refl eq_refl eq_refl
                eq_refl eq_refl eq_refl)
    as [Hres Hbridge].
  split; [exact Hres|].
  apply (Hbridge (JInt 30)
           (node_entries 30 "WanVideoTextEmbedBridge"
              ["positive"; "negative"] [JStr "bridge widget"]));
    reflexivity.
Defined.

(** C8, counterexample: the text_embeds sampler 90 is fed by bridge 30,
    whose upstream encoders hold "a castle at dawn" and " low quality", but
    the graph also has a wired pos/neg sampler, so the first stage returns
    and the bridge is never followed. *)
Lemma posneg_stage_preempts_bridge :
  sampler_with_text_embeds (graph_of doc_bridge_and_sampler)
  = Ok (Some (node_entries 90 "WanVideoSampler"
                ["model"; "image_embeds"; "text_embeds"] []))
  /\ src_for (graph_of doc_bridge_and_sampler) (JInt 90) (JInt 2)
     = Ok (JInt 30)
  /\ read_posneg (graph_of doc_bridge_and_sampler)
       (node_entries 30 "WanVideoTextEmbedBridge" ["positive"; "negative"] [])
     = Ok (JStr "a castle at dawn", JStr "low quality")
  /\ extract_prompts doc_bridge_and_sampler = Ok (JStr "a harbour", JNull).
Proof. repeat split; reflexivity. Qed.

(** ** Forward reachability on graphs whose links can be traversed *)

Lemma bfs_trace_answer (g : UIGraph) (out : list (json * list json))
  (m : nat) (q seen : list json) :
  bfs g out m q seen = (t <- bfs_trace g out m q seen ;; Ok (snd t)).
Proof.
  revert q seen; induction m as [|k IH]; intros q seen.
  - destruct q; reflexivity.
  - destruct q as [|x q]; [reflexivity|].
    cbn [bfs bfs_trace].
    destruct (scan_layer g out (x :: q) seen []) as [[|seen' nxt]|e];
      cbn [bind]; try reflexivity.
    rewrite IH. destruct (bfs_trace g out k nxt seen'); reflexivity.
Qed.

(** At most [max_hops] layers are processed. *)
Lemma bfs_trace_bound (g : UIGraph) (out : list (json * list json))
  (m : nat) (q seen : list json) (layers : list (list json)) (b : bool) :
  bfs_trace g out m q seen = Ok (layers, b) -> length layers <= m.
Proof.
  revert q seen layers b; induction m as [|k IH]; intros q seen layers b.
  - destruct q; intros H; inversion H; simpl; lia.
  - destruct q as [|x q]; [intros H; inversion H; simpl; lia|].
    cbn [bfs_trace].
    destruct (scan_layer g out (x :: q) seen []) as [[|seen' nxt]|e];
      cbn [bind]; try discriminate.
    + intros H; inversion H; simpl; lia.
    + destruct (bfs_trace g out k nxt seen') as [[ls b']|] eqn:E;
        cbn [bind]; try discriminate.
      intros H; inversion H; subst. simpl.
      specialize (IH _ _ _ _ E). lia.
Qed.

(** Exhausted bound, empty frontier: the answer is [False]. *)
Lemma bfs_no_hops (g : UIGraph) (out : list (json * list json))
  (q seen : list json) : bfs g out 0 q seen = Ok false.
Proof. destruct q; reflexivity. Qed.

Lemma bfs_empty_frontier (g : UIGraph) (out : list (json * list json))
  (m : nat) (seen : list json) : bfs g out m [] seen = Ok false.
Proof. destruct m; reflexivity. Qed.

(** A successor not seen before whose type is an output type ends the
    search at once. *)
Lemma scan_dsts_found (g : UIGraph) (dst : json) (rest seen nxt : list json) :
  Py.hashable dst = true ->
  in_seen dst seen = false ->
  Py.in_str_set (Py.dget (node_or_empty g dst) "type") OUTPUT_TYPES = Ok true ->
  scan_dsts g (dst :: rest) seen nxt = Ok Found.
Proof.
  intros Hh Hs Ht. cbn [scan_dsts]. rewrite Hh, Hs, Ht. reflexivity.
Qed.

(** A successor that was seen is passed over. *)
Lemma scan_dsts_seen (g : UIGraph) (dst : json) (rest seen nxt : list json) :
  Py.hashable dst = true ->
  in_seen dst seen = true ->
  scan_dsts g (dst :: rest) seen nxt = scan_dsts g rest seen nxt.
Proof.
  intros Hh Hs. cbn [scan_dsts]. rewrite Hh, Hs. reflexivity.
Qed.

Lemma in_seen_app (x : json) (a b : list json) :
  in_seen x (a ++ b) = in_seen x a || in_seen x b.
Proof. unfold in_seen. apply existsb_app. Qed.

Lemma in_seen_rev (x : json) (a : list json) :
  in_seen x (rev a) = in_seen x a.
Proof.
  induction a as [|y r IH]; [reflexivity|].
  simpl rev. rewrite in_seen_app, IH. simpl.
  rewrite orb_false_r. apply orb_comm.
Qed.

Lemma in_seen_false (x : json) (l : list json) :
  in_seen x l = false <-> forall y, In y l -> Py.key_eq x y = false.
Proof.
  unfold in_seen. induction l as [|z r IH]; simpl.
  - split; [intros _ y [] | reflexivity].
  - rewrite orb_false_iff, IH. split.
    + intros [H1 H2] y [<-|Hy]; auto.
    + intros H; split; [apply H; now left | intros y Hy; apply H; now right].
Qed.

Lemma in_seen_key_eq (x y : json) (l : list json) :
  Py.key_eq x y = true -> in_seen x l = in_seen y l.
Proof.
  intros E. unfold in_seen. induction l as [|z r IH]; [reflexivity|].
  simpl. rewrite IH. f_equal.
  rewrite (key_eq_sym x z), (key_eq_sym y z).
  apply (eqk_congr Py.key_eq key_eq_sym key_eq_trans _ _ _ E).
Qed.

Lemma distinct_app (a b : list json) :
  distinct (a ++ b)
  <-> distinct a /\ distinct b /\ forall x, In x a -> in_seen x b = false.
Proof.
  induction a as [|y r IH]; simpl.
  - split; [intros H; repeat split; auto; intros x [] | intros (_ & H & _); exact H].
  - rewrite in_seen_app, orb_false_iff, IH. split.
    + intros [[H1 H2] (H3 & H4 & H5)]. repeat split; auto.
      intros x [<-|Hx]; auto.
    + intros ((H1 & H2) & H3 & H4). repeat split; auto.
Qed.

(** What one pass over a list of successors adds: nodes that were not
    seen, each once, marked seen as they are queued. *)
Lemma scan_dsts_fresh (g : UIGraph) (dsts seen nxt seen' nxt' : list json) :
  scan_dsts g dsts seen nxt = Ok (Continue seen' nxt') ->
  exists new,
    nxt' = nxt ++ new /\ seen' = rev new ++ seen
    /\ distinct new /\ forall x, In x new -> in_seen x seen = false.
Proof.
  revert seen nxt; induction dsts as [|dst rest IH]; intros seen nxt.
  - intros H; inversion H; subst. exists []. rewrite app_nil_r.
    repeat split; auto. intros x [].
  - cbn [scan_dsts]. destruct (Py.hashable dst); [|discriminate].
    destruct (in_seen dst seen) eqn:Es; [apply IH|].
    destruct (Py.in_str_set _ OUTPUT_TYPES) as [[|]|e]; cbn [bind];
      try discriminate.
    intros H. destruct (IH _ _ H) as (new & -> & -> & Hd & Hf).
    exists (dst :: new). rewrite <- app_assoc. simpl rev.
    rewrite <- app_assoc. simpl. repeat split; auto.
    + apply in_seen_false. intros y Hy.
      specialize (Hf y Hy). simpl in Hf.
      apply orb_false_iff in Hf. rewrite key_eq_sym. tauto.
    + intros x [<-|Hx]; [exact Es|].
      specialize (Hf x Hx). simpl in Hf.
      apply orb_false_iff in Hf. tauto.
Qed.

Lemma scan_layer_fresh (g : UIGraph) (out : list (json * list json))
  (q seen nxt seen' nxt' : list json) :
  scan_layer g out q seen nxt = Ok (Continue seen' nxt') ->
  exists new,
    nxt' = nxt ++ new /\ seen' = rev new ++ seen
    /\ distinct new /\ forall x, In x new -> in_seen x seen = false.
Proof.
  revert seen nxt; induction q as [|nid rest IH]; intros seen nxt.
  - intros H; inversion H; subst. exists []. rewrite app_nil_r.
    repeat split; auto. intros x [].
  - cbn [scan_layer].
    destruct (scan_dsts g (successors out nid) seen nxt)
      as [[|seen1 nxt1]|e] eqn:E1; cbn [bind]; try discriminate.
    intros H.
    destruct (scan_dsts_fresh _ _ _ _ _ _ E1) as (n1 & -> & -> & Hd1 & Hf1).
    destruct (IH _ _ H) as (n2 & -> & -> & Hd2 & Hf2).
    exists (n1 ++ n2). rewrite rev_app_distr, !app_assoc.
    repeat split; auto.
    + apply distinct_app. repeat split; auto.
      intros x Hx. apply in_seen_false. intros y Hy.
      specialize (Hf2 y Hy). rewrite in_seen_app, in_seen_rev in Hf2.
      apply orb_false_iff in Hf2. destruct Hf2 as [Hf2 _].
      rewrite key_eq_sym. exact (proj1 (in_seen_false y n1) Hf2 x Hx).
    + intros x Hx. apply in_app_or in Hx. destruct Hx as [Hx|Hx]; auto.
      specialize (Hf2 x Hx). rewrite in_seen_app in Hf2.
      apply orb_false_iff in Hf2. tauto.
Qed.

(** The frontiers the search dequeues never hold a node twice, neither
    within a layer nor across layers. *)
Lemma bfs_trace_distinct (g : UIGraph) (out : list (json * list json))
  (m : nat) (q seen : list json) (layers : list (list json)) (b : bool) :
  distinct q -> covered q seen ->
  bfs_trace g out m q seen = Ok (layers, b) ->
  distinct (concat layers)
  /\ forall y, In y (concat layers) -> In y q \/ in_seen y seen = false.
Proof.
  revert q seen layers b; induction m as [|k IH]; intros q seen layers b Hq Hc.
  - destruct q; intros H; inversion H; simpl; split; auto; intros y [].
  - destruct q as [|x0 q0].
    { intros H; inversion H; simpl; split; auto; intros y []. }
    cbn [bfs_trace]. set (q := x0 :: q0) in *.
    destruct (scan_layer g out q seen []) as [[|seen' nxt]|e] eqn:E;
      cbn [bind]; try discriminate.
    + intros H; inversion H; subst. simpl. rewrite app_nil_r. auto.
    + destruct (bfs_trace g out k nxt seen') as [[ls b']|] eqn:Et;
        cbn [bind]; try discriminate.
      intros H; inversion H; subst; clear H. cbn [fst concat].
      destruct (scan_layer_fresh _ _ _ _ _ _ _ E) as (new & Hn & -> & Hd & Hf).
      simpl in Hn; subst nxt.
      assert (Hcov : covered new (rev new ++ seen)).
      { intros x Hx y Hy. rewrite in_seen_app, in_seen_rev in Hy.
        apply orb_false_iff in Hy. destruct Hy as [Hy _].
        rewrite key_eq_sym. exact (proj1 (in_seen_false y new) Hy x Hx). }
      destruct (IH _ _ _ _ Hd Hcov Et) as [Hdl Hfl].
      assert (Hfresh : forall y, In y (concat ls) -> in_seen y seen = false).
      { intros y Hy. destruct (Hfl y Hy) as [Hin|Hs]; [now apply Hf|].
        rewrite in_seen_app in Hs. apply orb_false_iff in Hs. tauto. }
      split.
      * apply distinct_app. split; [exact Hq | split; [exact Hdl|]].
        intros x Hx. apply in_seen_false. intros y Hy.
        apply (Hc x Hx). now apply Hfresh.
      * intros y Hy. apply in_app_or in Hy. destruct Hy as [Hy|Hy]; auto.
Qed.

Lemma dict_set_in {K V : Type} (eqk : K -> K -> bool) (d : list (K * V))
  (k : K) (v : V) (k0 : K) (v0 : V) :
  In (k0, v0) (Py.dict_set eqk d k v) -> In (k0, v0) d \/ v0 = v.
Proof.
  induction d as [|[k1 v1] r IH]; simpl.
  - intros [H|[]]. inversion H; auto.
  - destruct (eqk k k1); simpl.
    + intros [H|H]; [inversion H; auto | auto].
    + intros [H|H]; [auto|]. destruct (IH H); auto.
Qed.

Lemma add_out_edge_ok (out : list (json * list json)) (L : json) :
  link_traversable L = true -> out_ok out ->
  exists out', add_out_edge out L = Ok out' /\ out_ok out'.
Proof.
  unfold link_traversable, add_out_edge. intros HL Hout.
  destruct (Py.index L 1) as [src|]; [|discriminate].
  destruct (Py.index L 3) as [dst|]; [|discriminate].
  apply andb_true_iff in HL. destruct HL as [Hs Hd].
  cbn [bind]. rewrite Hs. cbn [bind].
  eexists; split; [reflexivity|].
  intros k ds Hin. apply dict_set_in in Hin. destruct Hin as [Hin| ->].
  - exact (Hout k ds Hin).
  - destruct (Py.dict_find Py.key_eq out src) as [ds0|] eqn:Ef.
    + destruct (dict_find_in _ _ _ _ Ef) as (k0 & Hin0 & _).
      rewrite forallb_app, (Hout k0 ds0 Hin0). simpl. now rewrite Hd.
    + simpl. now rewrite Hd.
Qed.

Lemma build_out_by_src_ok (Ls : list json) (out : list (json * list json)) :
  forallb link_traversable Ls = true -> out_ok out ->
  exists out', build_out_by_src Ls out = Ok out' /\ out_ok out'.
Proof.
  revert out; induction Ls as [|L r IH]; intros out HLs Hout; simpl.
  - eauto.
  - simpl in HLs. apply andb_true_iff in HLs. destruct HLs as [HL Hr].
    destruct (add_out_edge_ok out L HL Hout) as (out1 & -> & Hout1).
    cbn [bind]. now apply IH.
Qed.

Lemma successors_hashable (out : list (json * list json)) (nid : json) :
  out_ok out -> forallb Py.hashable (successors out nid) = true.
Proof.
  intros Hout. unfold successors.
  destruct (Py.dict_find Py.key_eq out nid) as [ds|] eqn:E; [|reflexivity].
  destruct (dict_find_in _ _ _ _ E) as (k0 & Hin & _).
  exact (Hout k0 ds Hin).
Qed.

Lemma node_type_hashable (g : UIGraph) (dst : json) :
  types_hashable g = true ->
  Py.hashable (Py.dget (node_or_empty g dst) "type") = true.
Proof.
  unfold types_hashable, node_or_empty. intros H.
  destruct (Py.dict_find Py.key_eq (nodes g) dst) as [n|] eqn:E;
    [|reflexivity].
  destruct (dict_find_in _ _ _ _ E) as (k0 & Hin & _).
  exact (proj1 (forallb_forall _ _) H (k0, n) Hin).
Qed.

Lemma scan_dsts_ok (g : UIGraph) (dsts seen nxt : list json) :
  types_hashable g = true ->
  forallb Py.hashable dsts = true ->
  exists r, scan_dsts g dsts seen nxt = Ok r.
Proof.
  intros Hg. revert seen nxt; induction dsts as [|dst rest IH];
    intros seen nxt Hd; cbn [scan_dsts]; [eauto|].
  simpl in Hd. apply andb_true_iff in Hd. destruct Hd as [Hh Hr].
  rewrite Hh. destruct (in_seen dst seen); [now apply IH|].
  unfold Py.in_str_set. rewrite (node_type_hashable g dst Hg). cbn [bind].
  destruct (Py.in_strs _ OUTPUT_TYPES); [eauto | now apply IH].
Qed.

Lemma scan_layer_ok (g : UIGraph) (out : list (json * list json))
  (q seen nxt : list json) :
  types_hashable g = true -> out_ok out ->
  exists r, scan_layer g out q seen nxt = Ok r.
Proof.
  intros Hg Hout. revert seen nxt; induction q as [|nid rest IH];
    intros seen nxt; cbn [scan_layer]; [eauto|].
  destruct (scan_dsts_ok g (successors out nid) seen nxt Hg
              (successors_hashable out nid Hout)) as [[|seen' nxt'] ->];
    cbn [bind]; [eauto | apply IH].
Qed.

Lemma bfs_trace_ok (g : UIGraph) (out : list (json * list json))
  (m : nat) (q seen : list json) :
  types_hashable g = true -> out_ok out ->
  exists t, bfs_trace g out m q seen = Ok t.
Proof.
  intros Hg Hout. revert q seen; induction m as [|k IH]; intros q seen.
  - destruct q; simpl; eauto.
  - destruct q as [|x q]; [simpl; eauto|]. cbn [bfs_trace].
    destruct (scan_layer_ok g out (x :: q) seen [] Hg Hout)
      as [[|seen' nxt] ->]; cbn [bind]; [eauto|].
    destruct (IH nxt seen') as [t ->]. cbn [bind]. eauto.
Qed.

(** On a graph whose link entries can all be traversed and whose type
    tags are hashable, the reachability check returns an answer for every
    hashable start id and every bound, cycles or not: it processes at most
    [max_hops] layers and no node is dequeued twice. *)
Theorem reaches_output_total (g : UIGraph) (Ls : list json)
  (start_id : json) (max_hops : nat) :
  Py.iter (links g) = Ok Ls ->
  forallb link_traversable Ls = true ->
  types_hashable g = true ->
  Py.hashable start_id = true ->
  exists out layers b,
    build_out_by_src Ls [] = Ok out
    /\ bfs_trace g out max_hops [start_id] [start_id] = Ok (layers, b)
    /\ _reaches_output g start_id max_hops = Ok b
    /\ length layers <= max_hops
    /\ distinct (concat layers).
Proof.
  intros HLs Htrav Hg Hs.
  assert (H0 : out_ok []) by (intros k ds []).
  destruct (build_out_by_src_ok Ls [] Htrav H0) as (out & Hb & Hout).
  destruct (bfs_trace_ok g out max_hops [start_id] [start_id] Hg Hout)
    as [[layers b] Ht].
  exists out, layers, b. split; [exact Hb|]. split; [exact Ht|].
  split; [|split].
  - unfold _reaches_output. rewrite HLs; cbn [bind]. rewrite Hb; cbn [bind].
    rewrite Hs, bfs_trace_answer, Ht. reflexivity.
  - eapply bfs_trace_bound; eassumption.
  - refine (proj1 (bfs_trace_distinct g out max_hops _ _ _ _ _ _ Ht)).
    + simpl. auto.
    + intros x [<-|[]] y Hy. simpl in Hy.
      apply orb_false_iff in Hy. rewrite key_eq_sym. tauto.
Qed.

Lemma reaches_output_total_witness :
  _reaches_output (graph_of doc_cycle) (JInt 1) default_max_hops = Ok true
  /\ _reaches_output (graph_of doc_cycle) (JInt 1) 2 = Ok false.
Proof.
  split.
  - destruct (reaches_output_total (graph_of doc_cycle) _ (JInt 1)
                default_max_hops eq_refl eq_refl eq_refl eq_refl)
      as (out & layers & b & Hout & Ht & Hr & _).
    rewrite Hr. f_equal.
    assert (E : bfs_trace (graph_of doc_cycle) out default_max_hops
                  [JInt 1] [JInt 1]
                = Ok ([[JInt 1]; [JInt 2]; [JInt 3]], true)).
    { inversion Hout; subst out. reflexivity. }
    rewrite E in Ht. now inversion Ht.
  - reflexivity.
Defined.

(** ** Reachability as walks over the links *)

Lemma dict_find_key_eq {V : Type} (d : list (json * V)) (a b : json) :
  Py.key_eq a b = true ->
  Py.dict_find Py.key_eq d a = Py.dict_find Py.key_eq d b.
Proof.
  intros E. induction d as [|[k v] r IH]; simpl; [reflexivity|].
  rewrite IH, (key_eq_sym a k), (key_eq_sym b k).
  now rewrite (eqk_congr Py.key_eq key_eq_sym key_eq_trans a b k E).
Qed.

Lemma successors_key_eq (out : list (json * list json)) (a b : json) :
  Py.key_eq a b = true -> successors out a = successors out b.
Proof.
  intros E. unfold successors. now rewrite (dict_find_key_eq out a b E).
Qed.

Lemma is_output_key_eq (g : UIGraph) (a b : json) :
  Py.key_eq a b = true -> is_output g a = is_output g b.
Proof.
  intros E. unfold is_output, node_or_empty.
  now rewrite (dict_find_key_eq (nodes g) a b E).
Qed.

Lemma in_seen_true (x : json) (l : list json) :
  in_seen x l = true <-> exists y, In y l /\ Py.key_eq x y = true.
Proof. unfold in_seen. apply existsb_exists. Qed.

(** The forward index lists, under a source id, the destinations of the
    link entries leaving it, and nothing else. *)
Lemma add_out_edge_successors (out out' : list (json * list json)) (L : json) :
  add_out_edge out L = Ok out' ->
  forall y z,
    In z (successors out' y)
    <-> In z (successors out y)
        \/ exists src, Py.index L 1 = Ok src /\ Py.key_eq y src = true
                       /\ Py.index L 3 = Ok z.
Proof.
  unfold add_out_edge.
  destruct (Py.index L 1) as [src|]; cbn [bind]; [|discriminate].
  destruct (Py.hashable src); [|discriminate].
  destruct (Py.index L 3) as [dst|]; cbn [bind]; [|discriminate].
  intros H y z. inversion H; subst out'; clear H.
  unfold successors at 1.
  rewrite (dict_find_set Py.key_eq key_eq_sym key_eq_trans).
  destruct (Py.key_eq y src) eqn:E.
  - unfold successors. rewrite (dict_find_key_eq out y src E).
    destruct (Py.dict_find Py.key_eq out src) as [ds|].
    + rewrite in_app_iff. split.
      * intros [Hz|[<-|[]]]; [now left|]. right. exists src. auto.
      * intros [Hz|(s & Hs & _ & Hd)]; [now left|].
        right. left. congruence.
    + split.
      * intros [<-|[]]. right. exists src. auto.
      * intros [[]|(s & Hs & _ & Hd)]. left. congruence.
  - fold (successors out y). split; [now left|].
    intros [Hz|(s & Hs & Hk & _)]; [exact Hz|].
    inversion Hs; subst s. rewrite Hk in E. discriminate.
Qed.

Lemma build_out_by_src_successors (Ls : list json)
  (out0 out : list (json * list json)) :
  build_out_by_src Ls out0 = Ok out ->
  forall y z,
    In z (successors out y) <-> In z (successors out0 y) \/ linked Ls y z.
Proof.
  revert out0; induction Ls as [|L r IH]; intros out0; simpl.
  - intros H y z; inversion H; subst. split; [now left|].
    intros [Hz|(L & s & [] & _)]. exact Hz.
  - destruct (add_out_edge out0 L) as [out1|] eqn:E1; cbn [bind];
      [|discriminate].
    intros H y z. rewrite (IH _ H y z), (add_out_edge_successors _ _ _ E1 y z).
    split.
    + intros [[Hz|(s & Hs & Hk & Hd)]|(L' & s & Hin & Hrest)].
      * now left.
      * right. exists L, s. simpl. auto.
      * right. exists L', s. simpl. auto.
    + intros [Hz|(L' & s & [<-|Hin] & Hs & Hk & Hd)].
      * left. now left.
      * left. right. exists s. auto.
      * right. exists L', s. auto.
Qed.

Lemma successors_linked (Ls : list json) (out : list (json * list json)) :
  build_out_by_src Ls [] = Ok out ->
  forall y z, In z (successors out y) <-> linked Ls y z.
Proof.
  intros H y z. rewrite (build_out_by_src_successors _ _ _ H y z).
  split; [intros [[]|Hl]; exact Hl | now right].
Qed.

(** [return True] is reached only at a successor that was not seen and has
    an output type. *)
Lemma scan_dsts_found_inv (g : UIGraph) (dsts seen nxt : list json) :
  scan_dsts g dsts seen nxt = Ok Found ->
  exists dst,
    In dst dsts /\ is_output g dst = true /\ in_seen dst seen = false.
Proof.
  revert seen nxt; induction dsts as [|dst rest IH]; intros seen nxt;
    cbn [scan_dsts]; [discriminate|].
  destruct (Py.hashable dst); [|discriminate].
  destruct (in_seen dst seen) eqn:Es.
  - intros H. destruct (IH _ _ H) as (d & Hin & Ho & Hs).
    exists d. split; [now right | auto].
  - unfold Py.in_str_set.
    destruct (Py.hashable (Py.dget (node_or_empty g dst) "type"));
      cbn [bind]; [|discriminate].
    destruct (Py.in_strs (Py.dget (node_or_empty g dst) "type") OUTPUT_TYPES)
      eqn:Eo.
    + intros _. exists dst. split; [now left | auto].
    + intros H. destruct (IH _ _ H) as (d & Hin & Ho & Hs).
      exists d. split; [now right|]. split; [exact Ho|].
      simpl in Hs. apply orb_false_iff in Hs. tauto.
Qed.

(** A pass that goes on has queued successors without an output type only,
    and has left every successor seen. *)
Lemma scan_dsts_continue (g : UIGraph) (dsts seen nxt seen' nxt' : list json) :
  scan_dsts g dsts seen nxt = Ok (Continue seen' nxt') ->
  exists new,
    nxt' = nxt ++ new /\ seen' = rev new ++ seen
    /\ (forall x, In x new -> In x dsts /\ is_output g x = false)
    /\ (forall d, In d dsts -> in_seen d seen' = true).
Proof.
  revert seen nxt; induction dsts as [|dst rest IH]; intros seen nxt;
    cbn [scan_dsts].
  - intros H; inversion H; subst. exists []. rewrite app_nil_r.
    split; [reflexivity|]. split; [reflexivity|]. split; intros x [].
  - destruct (Py.hashable dst) eqn:Eh; [|discriminate].
    destruct (in_seen dst seen) eqn:Es.
    + intros H. destruct (IH _ _ H) as (new & -> & -> & Hn & Hd).
      exists new. split; [reflexivity|]. split; [reflexivity|]. split.
      * intros x Hx. destruct (Hn x Hx). split; [now right | auto].
      * intros d [<-|Hin]; [|now apply Hd].
        rewrite in_seen_app, Es. apply orb_true_r.
    + unfold Py.in_str_set.
      destruct (Py.hashable (Py.dget (node_or_empty g dst) "type"));
        cbn [bind]; [|discriminate].
      destruct (Py.in_strs (Py.dget (node_or_empty g dst) "type") OUTPUT_TYPES)
        eqn:Eo; [discriminate|].
      intros H. destruct (IH _ _ H) as (new & -> & -> & Hn & Hd).
      exists (dst :: new). rewrite <- app_assoc. simpl rev.
      rewrite <- app_assoc. simpl app.
      split; [reflexivity|]. split; [reflexivity|]. split.
      * intros x [<-|Hx]; [split; [now left | exact Eo]|].
        destruct (Hn x Hx). split; [now right | auto].
      * intros d [<-|Hin]; [|now apply Hd].
        rewrite in_seen_app. simpl. rewrite (key_eq_refl dst Eh).
        apply orb_true_r.
Qed.

Lemma scan_layer_found_inv (g : UIGraph) (out : list (json * list json))
  (q seen nxt : list json) :
  scan_layer g out q seen nxt = Ok Found ->
  exists nid dst,
    In nid q /\ In dst (successors out nid)
    /\ is_output g dst = true /\ in_seen dst seen = false.
Proof.
  revert seen nxt; induction q as [|nid rest IH]; intros seen nxt;
    cbn [scan_layer]; [discriminate|].
  destruct (scan_dsts g (successors out nid) seen nxt)
    as [[|seen1 nxt1]|e] eqn:E1; cbn [bind]; try discriminate.
  - intros _. destruct (scan_dsts_found_inv _ _ _ _ E1) as (d & Hin & Ho & Hs).
    exists nid, d. split; [now left | auto].
  - intros H. destruct (IH _ _ H) as (n & d & Hn & Hd & Ho & Hs).
    destruct (scan_dsts_continue _ _ _ _ _ _ E1) as (new & _ & -> & _ & _).
    exists n, d. split; [now right|]. split; [exact Hd|]. split; [exact Ho|].
    rewrite in_seen_app in Hs. apply orb_false_iff in Hs. tauto.
Qed.

Lemma scan_layer_continue (g : UIGraph) (out : list (json * list json))
  (q seen nxt seen' nxt' : list json) :
  scan_layer g out q seen nxt = Ok (Continue seen' nxt') ->
  exists new,
    nxt' = nxt ++ new /\ seen' = rev new ++ seen
    /\ (forall x, In x new ->
          (exists nid, In nid q /\ In x (successors out nid))
          /\ is_output g x = false)
    /\ (forall nid d, In nid q -> In d (successors out nid) ->
          in_seen d seen' = true).
Proof.
  revert seen nxt; induction q as [|nid rest IH]; intros seen nxt;
    cbn [scan_layer].
  - intros H; inversion H; subst. exists []. rewrite app_nil_r.
    split; [reflexivity|]. split; [reflexivity|].
    split; [intros x [] | intros n d []].
  - destruct (scan_dsts g (successors out nid) seen nxt)
      as [[|seen1 nxt1]|e] eqn:E1; cbn [bind]; try discriminate.
    intros H.
    destruct (scan_dsts_continue _ _ _ _ _ _ E1) as (n1 & -> & -> & Hn1 & Hd1).
    destruct (IH _ _ H) as (n2 & -> & -> & Hn2 & Hd2).
    exists (n1 ++ n2). rewrite rev_app_distr, !app_assoc.
    split; [reflexivity|]. split; [reflexivity|]. split.
    + intros x Hx. apply in_app_or in Hx. destruct Hx as [Hx|Hx].
      * destruct (Hn1 x Hx) as [Hin Ho]. split; [|exact Ho].
        exists nid. split; [now left | exact Hin].
      * destruct (Hn2 x Hx) as [(n & Hn & Hin) Ho]. split; [|exact Ho].
        exists n. split; [now right | exact Hin].
    + intros n d [<-|Hn] Hd.
      * rewrite <- app_assoc, in_seen_app, (Hd1 d Hd). apply orb_true_r.
      * rewrite <- app_assoc. now apply (Hd2 n d).
Qed.

(** Soundness: an answer [True] comes with a walk from a node of the
    frontier to an unseen node of output type, within the bound. *)
Lemma bfs_sound (g : UIGraph) (Ls : list json) (out : list (json * list json))
  (m : nat) (q seen : list json) :
  (forall y z, In z (successors out y) -> linked Ls y z) ->
  bfs g out m q seen = Ok true ->
  exists x n d,
    In x q /\ n <= m /\ walk Ls n x d
    /\ is_output g d = true /\ in_seen d seen = false.
Proof.
  intros Hout. revert q seen; induction m as [|k IH]; intros q seen.
  - rewrite bfs_no_hops. discriminate.
  - destruct q as [|x0 q0]; [discriminate|].
    cbn [bfs]. set (q := x0 :: q0).
    destruct (scan_layer g out q seen []) as [[|seen' nxt]|e] eqn:E;
      cbn [bind]; try discriminate.
    + intros _.
      destruct (scan_layer_found_inv _ _ _ _ _ E) as (nid & d & Hn & Hd & Ho & Hs).
      exists nid, 1, d. split; [exact Hn|]. split; [lia|].
      split; [apply walk_one; now apply Hout | auto].
    + intros H. destruct (IH _ _ H) as (x & n & d & Hx & Hle & Hw & Ho & Hs).
      destruct (scan_layer_continue _ _ _ _ _ _ _ E) as (new & Hnew & -> & Hn & _).
      simpl in Hnew; subst nxt.
      destruct (Hn x Hx) as [(nid & Hnid & Hsucc) _].
      exists nid, (S n), d. split; [exact Hnid|]. split; [lia|].
      split; [apply (walk_step Ls n nid x d); [now apply Hout | exact Hw]|].
      split; [exact Ho|].
      rewrite in_seen_app in Hs. apply orb_false_iff in Hs. tauto.
Qed.

Lemma walk_closed (Ls : list json) (seen : list json) (n : nat) (x d : json) :
  (forall y z, in_seen y seen = true -> linked Ls y z -> in_seen z seen = true) ->
  walk Ls n x d -> in_seen x seen = true -> in_seen d seen = true.
Proof.
  intros Hc Hw. induction Hw as [a b Hl | n a b c Hl Hw IH]; intros Ha.
  - exact (Hc a b Ha Hl).
  - apply IH. exact (Hc a b Ha Hl).
Qed.

(** Completeness: an answer [False] leaves no node of output type other
    than the start at the end of a walk within the bound. *)
Lemma bfs_complete (g : UIGraph) (Ls : list json)
  (out : list (json * list json)) (start_id : json)
  (m : nat) (q seen : list json) :
  (forall y z, linked Ls y z -> In z (successors out y)) ->
  closed Ls q seen -> plain g start_id seen ->
  bfs g out m q seen = Ok false ->
  forall n x d,
    n <= m -> in_seen x seen = true -> walk Ls n x d ->
    Py.key_eq d start_id = true \/ is_output g d = false.
Proof.
  intros Hout. revert q seen; induction m as [|k IH]; intros q seen Hc Hp.
  - intros _ n x d Hle _ Hw. inversion Hw; subst; lia.
  - destruct q as [|x0 q0].
    { intros _ n x d _ Hx Hw. apply Hp.
      refine (walk_closed Ls seen n x d _ Hw Hx).
      intros y z Hy Hl. destruct (Hc y z Hy Hl) as [H|H];
        [discriminate H | exact H]. }
    cbn [bfs]. set (q := x0 :: q0) in *.
    destruct (scan_layer g out q seen []) as [[|seen' nxt]|e] eqn:E;
      cbn [bind]; try discriminate.
    intros H.
    destruct (scan_layer_continue _ _ _ _ _ _ _ E) as (new & Hnew & -> & Hn & Hd).
    simpl in Hnew; subst nxt.
    assert (Hstep : forall y z, in_seen y seen = true -> linked Ls y z ->
                      in_seen z (rev new ++ seen) = true).
    { intros y z Hy Hl. destruct (Hc y z Hy Hl) as [Hq|Hz].
      - apply in_seen_true in Hq. destruct Hq as (nid & Hnid & Ek).
        apply (Hd nid z Hnid).
        rewrite <- (successors_key_eq out y nid Ek). now apply Hout.
      - rewrite in_seen_app, Hz. apply orb_true_r. }
    assert (Hc' : closed Ls new (rev new ++ seen)).
    { intros y z Hy Hl. rewrite in_seen_app, in_seen_rev in Hy.
      apply orb_true_iff in Hy. destruct Hy as [Hy|Hy]; [now left|].
      right. now apply (Hstep y z). }
    assert (Hp' : plain g start_id (rev new ++ seen)).
    { intros y Hy. rewrite in_seen_app, in_seen_rev in Hy.
      apply orb_true_iff in Hy. destruct Hy as [Hy|Hy]; [|now apply Hp].
      apply in_seen_true in Hy. destruct Hy as (x & Hx & Ek).
      right. rewrite (is_output_key_eq g y x Ek). exact (proj2 (Hn x Hx)). }
    intros n x d Hle Hx Hw. inversion Hw as [a b Hl | n' a b c Hl Hw']; subst.
    + apply Hp'. now apply (Hstep x d).
    + apply (IH new (rev new ++ seen) Hc' Hp' H n' b d); [lia | | exact Hw'].
      now apply (Hstep x b).
Qed.

(** On a graph whose link entries can all be traversed, [_reaches_output]
    answers [True] exactly when a walk of at least one and at most
    [max_hops] links leads from the start id to a node of output type other
    than the start itself; an output type of the start node alone, or an
    output node farther away than [max_hops] links, gives [False]. *)
Theorem reaches_output_iff_walk (g : UIGraph) (Ls : list json)
  (start_id : json) (max_hops : nat) :
  Py.iter (links g) = Ok Ls ->
  forallb link_traversable Ls = true ->
  types_hashable g = true ->
  Py.hashable start_id = true ->
  exists b,
    _reaches_output g start_id max_hops = Ok b
    /\ (b = true <->
        exists n d,
          n <= max_hops /\ walk Ls n start_id d
          /\ Py.key_eq d start_id = false /\ is_output g d = true).
Proof.
  intros HLs Htrav Hg Hs.
  assert (H0 : out_ok []) by (intros k ds []).
  destruct (build_out_by_src_ok Ls [] Htrav H0) as (out & Hb & Hout).
  destruct (bfs_trace_ok g out max_hops [start_id] [start_id] Hg Hout)
    as [[layers b] Ht].
  assert (Hbfs : bfs g out max_hops [start_id] [start_id] = Ok b).
  { rewrite bfs_trace_answer, Ht. reflexivity. }
  exists b. split.
  { unfold _reaches_output. rewrite HLs; cbn [bind]. rewrite Hb; cbn [bind].
    now rewrite Hs. }
  split.
  - intros ->.
    destruct (bfs_sound g Ls out max_hops _ _
                (fun y z => proj1 (successors_linked Ls out Hb y z)) Hbfs)
      as (x & n & d & [<-|[]] & Hle & Hw & Ho & Hseen).
    exists n, d. split; [exact Hle|]. split; [exact Hw|]. split; [|exact Ho].
    simpl in Hseen. apply orb_false_iff in Hseen. tauto.
  - intros (n & d & Hle & Hw & Hne & Ho).
    destruct b; [reflexivity|]. exfalso.
    assert (Hc : closed Ls [start_id] [start_id]) by (intros y z Hy _; now left).
    assert (Hp : plain g start_id [start_id]).
    { intros y Hy. simpl in Hy. apply orb_true_iff in Hy.
      destruct Hy as [Hy|Hy]; [now left | discriminate Hy]. }
    destruct (bfs_complete g Ls out start_id max_hops _ _
                (fun y z => proj2 (successors_linked Ls out Hb y z))
                Hc Hp Hbfs n start_id d Hle) as [H|H].
    + simpl. now rewrite (key_eq_refl start_id Hs).
    + exact Hw.
    + rewrite H in Hne. discriminate.
    + rewrite H in Ho. discriminate.
Qed.

Lemma reaches_output_iff_walk_witness :
  _reaches_output (graph_of doc_cycle) (JInt 1) default_max_hops = Ok true.
Proof.
  destruct (reaches_output_iff_walk (graph_of doc_cycle)
              [ editor_link 1 1 0 2 0 "LATENT";
                editor_link 2 2 0 3 0 "IMAGE";
                editor_link 3 3 0 1 0 "IMAGE";
                editor_link 4 3 0 4 0 "IMAGE" ]
              (JInt 1) default_max_hops eq_refl eq_refl eq_refl eq_refl)
    as (b & Hb & Hiff).
  rewrite Hb. f_equal. apply Hiff.
  exists 3, (JInt 4). split; [unfold default_max_hops; lia|].
  split; [|split; reflexivity].
  apply (walk_step _ 2 (JInt 1) (JInt 2) (JInt 4)).
  { exists (editor_link 1 1 0 2 0 "LATENT"), (JInt 1). simpl. auto. }
  apply (walk_step _ 1 (JInt 2) (JInt 3) (JInt 4)).
  { exists (editor_link 2 2 0 3 0 "IMAGE"), (JInt 2). simpl. auto. }
  apply walk_one.
  exists (editor_link 4 3 0 4 0 "IMAGE"), (JInt 3). simpl. auto 6.
Defined.

(** ** The order of the stages *)

Lemma stages_order_facts (g : UIGraph) :
  (forall r, stage_posneg g = Ok (Some r) ->
     extract_ui g = Ok r
     /\ Py.truthy (fst r) || Py.truthy (snd r) = true
     /\ (fst r = JNull \/ exists t, fst r = JStr t /\ Py.blank t = false)
     /\ (snd r = JNull \/ exists t, snd r = JStr t /\ Py.blank t = false))
  /\ (forall r, stage_posneg g = Ok None ->
        stage_text_embeds g = Ok (Some r) -> extract_ui g = Ok r)
  /\ (stage_posneg g = Ok None -> stage_text_embeds g = Ok None ->
      extract_ui g = stage_fallback g).
Proof.
  split; [|split].
  - intros r Ha. split; [unfold extract_ui; now rewrite Ha|].
    unfold stage_posneg in Ha.
    destruct (sampler_with_posneg g) as [[n|]|]; cbn [bind] in Ha;
      try discriminate.
    destruct (node_truthy n); [|discriminate].
    destruct (node_id n); cbn [bind] in Ha; [|discriminate].
    destruct (read_posneg g n) as [[p ng]|] eqn:E; cbn [bind] in Ha;
      [|discriminate].
    unfold return_if_any in Ha. cbn [fst snd] in Ha.
    destruct (Py.truthy p || Py.truthy ng) eqn:Et; [|discriminate].
    inversion Ha; subst r; clear Ha. cbn [fst snd].
    split; [exact Et|].
    unfold read_posneg in E.
    destruct (input_index n "positive"); cbn [bind] in E; [|discriminate].
    destruct (input_index n "negative"); cbn [bind] in E; [|discriminate].
    destruct (src_of_input g n _); cbn [bind] in E; [|discriminate].
    destruct (src_of_input g n _); cbn [bind] in E; [|discriminate].
    destruct (read_text_from_node g _ (JStr "positive")) as [p'|] eqn:Ep;
      cbn [bind] in E; [|discriminate].
    destruct (read_text_from_node g _ (JStr "negative")) as [n'|] eqn:En;
      cbn [bind] in E; [|discriminate].
    inversion E; subst p' n'.
    split; eapply read_text_never_blank; eassumption.
  - intros r Ha Hb. unfold extract_ui. now rewrite Ha, Hb.
  - intros Ha Hb. unfold extract_ui. now rewrite Ha, Hb.
Qed.


(** The stages run in the order pos/neg sampler, text_embeds sampler,
    fallback; the first stage hands back a pair only when one of its two
    texts is present, and neither text is ever blank. *)
Theorem stages_in_order (g : UIGraph) :
  (forall r, stage_posneg g = Ok (Some r) ->
     extract_ui g = Ok r
     /\ Py.truthy (fst r) || Py.truthy (snd r) = true
     /\ (fst r = JNull \/ exists t, fst r = JStr t /\ Py.blank t = false)
     /\ (snd r = JNull \/ exists t, snd r = JStr t /\ Py.blank t = false))
  /\ (forall r, stage_posneg g = Ok None ->
        stage_text_embeds g = Ok (Some r) -> extract_ui g = Ok r)
  /\ (stage_posneg g = Ok None -> stage_text_embeds g = Ok None ->
      extract_ui g = stage_fallback g).
Proof. exact (stages_order_facts g). Qed.

(** ** The flat (API) branch *)

Lemma api_wan_encode_skip (pre rest : list (string * json)) :
  forallb not_wan_encode pre = true ->
  api_wan_encode (pre ++ rest) = api_wan_encode rest.
Proof.
  induction pre as [|[k v] r IH]; [reflexivity|]. simpl forallb.
  rewrite andb_true_iff. intros [Hv Hr]. specialize (IH Hr).
  unfold not_wan_encode, is_class in Hv. simpl in Hv.
  rewrite <- app_comm_cons. cbn [api_wan_encode].
  destruct v; try exact IH.
  apply negb_true_iff in Hv. rewrite Hv. exact IH.
Qed.

Lemma api_qwen_edit_skip (pre rest : list (string * json)) :
  forallb (fun kv => qwen_passed (snd kv)) pre = true ->
  api_qwen_edit (pre ++ rest) = api_qwen_edit rest.
Proof.
  induction pre as [|[k v] r IH]; [reflexivity|]. simpl forallb.
  rewrite andb_true_iff. intros [Hv Hr]. specialize (IH Hr).
  rewrite <- app_comm_cons. cbn [api_qwen_edit].
  destruct v as [| | | | |nd]; try exact IH.
  unfold qwen_passed in Hv.
  destruct (Py.str_is (Py.dget nd "class_type") "TextEncodeQwenImageEdit");
    [|exact IH].
  simpl in Hv. unfold Py.get_default.
  destruct (Py.lookup nd "inputs") as [[| | | | |ins]|]; try discriminate;
    cbn [bind Py.contains_str].
  - destruct (Py.lookup ins "prompt"); [discriminate | exact IH].
  - exact IH.
Qed.

(** What the flat branch does, field by field: the first WanVideoTextEncode
    entry decides and its two input fields come back as they are; without
    such an entry, the first TextEncodeQwenImageEdit entry holding "prompt"
    gives the positive side alone; otherwise both sides are absent.  No
    value is normalized on the way. *)
Theorem api_branch_verbatim (d : list (string * json)) :
  Py.lookup d "nodes" = None ->
  (forall pre key nd post ins,
      d = pre ++ (key, JDict nd) :: post ->
      forallb not_wan_encode pre = true ->
      is_class "WanVideoTextEncode" (JDict nd) = true ->
      Py.get_default (JDict nd) "inputs" (JDict []) = Ok (JDict ins) ->
      extract_prompts (JDict d)
      = Ok (Py.dget ins "positive_prompt", Py.dget ins "negative_prompt"))
  /\ (forall pre key nd post ins p,
        forallb not_wan_encode d = true ->
        d = pre ++ (key, JDict nd) :: post ->
        forallb (fun kv => qwen_passed (snd kv)) pre = true ->
        is_class "TextEncodeQwenImageEdit" (JDict nd) = true ->
        Py.lookup nd "inputs" = Some (JDict ins) ->
        Py.lookup ins "prompt" = Some p ->
        extract_prompts (JDict d) = Ok (p, JNull))
  /\ (forallb not_wan_encode d = true ->
      forallb (fun kv => qwen_passed (snd kv)) d = true ->
      extract_prompts (JDict d) = Ok (JNull, JNull)).
Proof.
  intros Hnodes.
  assert (Hnone : forallb not_wan_encode d = true ->
                  api_wan_encode d = Ok None).
  { intros H. rewrite <- (app_nil_r d). now rewrite api_wan_encode_skip. }
  split; [|split].
  - intros pre key nd post ins -> Hpre Hcls Hin.
    unfold extract_prompts. rewrite Hnodes. unfold extract_api.
    rewrite api_wan_encode_skip by exact Hpre.
    cbn [api_wan_encode]. simpl in Hcls. rewrite Hcls, Hin.
    reflexivity.
  - intros pre key nd post ins p Hno -> Hpre Hcls Hin Hp.
    unfold extract_prompts. rewrite Hnodes. unfold extract_api.
    rewrite (Hnone Hno); cbn [bind].
    rewrite api_qwen_edit_skip by exact Hpre.
    cbn [api_qwen_edit]. simpl in Hcls. rewrite Hcls.
    unfold Py.get_default. rewrite Hin. cbn [bind Py.contains_str].
    rewrite Hp. cbn [bind Py.getitem]. rewrite Hp. reflexivity.
  - intros Hno Hq.
    unfold extract_prompts. rewrite Hnodes. unfold extract_api.
    rewrite (Hnone Hno); cbn [bind].
    rewrite <- (app_nil_r d). rewrite api_qwen_edit_skip by exact Hq.
    reflexivity.
Qed.

Lemma api_branch_verbatim_witness :
  extract_prompts doc_api_padded = Ok (JStr "  hi ", JStr "")
  /\ extract_prompts doc_api_qwen = Ok (JStr "make it snow", JNull).
Proof.
  split.
  - apply (proj1 (api_branch_verbatim api_padded_entries eq_refl) [] "5"
             [ ("class_type", JStr "WanVideoTextEncode");
               ("inputs",
                JDict [ ("positive_prompt", JStr "  hi ");
                        ("negative_prompt", JStr "") ]) ]
             []
             [ ("positive_prompt", JStr "  hi ");
               ("negative_prompt", JStr "") ]); reflexivity.
  - apply (proj1 (proj2 (api_branch_verbatim api_qwen_entries eq_refl))
             [ ("3", JDict [ ("class_type", JStr "KSampler");
                             ("inputs", JDict [("seed", JInt 7)]) ]) ]
             "76"
             [ ("class_type", JStr "TextEncodeQwenImageEdit");
               ("inputs", JDict [("prompt", JStr "make it snow")]) ]
             [] [("prompt", JStr "make it snow")]); reflexivity.
Defined.

(** * Further properties of the code *)

(** ** [input_index] *)

Lemma index_of_name_spec (ins : list json) (name : string) (k : nat) :
  (forall i, index_of_name ins name k = Ok (Some i) ->
     k <= i
     /\ (exists inp, nth_error ins (i - k) = Some inp
                     /\ input_named name inp = true)
     /\ forall j inp, j < i - k -> nth_error ins j = Some inp ->
                      input_named name inp = false)
  /\ (index_of_name ins name k = Ok None ->
      forall inp, In inp ins -> input_named name inp = false).
Proof.
  revert k; induction ins as [|inp0 r IH]; intros k; simpl.
  - split; [discriminate | intros _ inp []].
  - destruct (Py.get inp0 "name") as [nm|] eqn:En; cbn [bind];
      [|split; discriminate].
    destruct (Py.str_is nm name) eqn:Es.
    + split; [|discriminate].
      intros i H; inversion H; subst i. rewrite Nat.sub_diag.
      split; [lia|]. split.
      * exists inp0. split; [reflexivity|].
        unfold input_named. now rewrite En.
      * intros j inp Hj; lia.
    + destruct (IH (S k)) as [IHs IHn]. split.
      * intros i H. destruct (IHs i H) as (Hle & (inp & Hnth & Hnm) & Hbefore).
        split; [lia|].
        replace (i - k) with (S (i - S k)) by lia. split.
        -- exists inp. auto.
        -- intros j inp' Hj Hn. destruct j as [|j].
           ++ simpl in Hn. inversion Hn; subst inp'.
              unfold input_named. now rewrite En.
           ++ simpl in Hn. apply (Hbefore j inp'); [lia | exact Hn].
      * intros H inp [<-|Hin].
        -- unfold input_named. now rewrite En.
        -- now apply IHn.
Qed.

Lemma index_of_name_total (ins names : list json) (name : string) (k : nat) :
  input_names ins = Ok names ->
  exists r, index_of_name ins name k = Ok r.
Proof.
  revert names k; induction ins as [|inp r IH]; intros names k; simpl;
    [eauto|].
  destruct (Py.get inp "name") as [nm|]; cbn [bind]; [|discriminate].
  destruct (input_names r) as [tl|]; cbn [bind]; [|discriminate].
  intros _. destruct (Py.str_is nm name); [eauto|].
  exact (IH tl (S k) eq_refl).
Qed.

(** [input_index] returns the position of the first declared input that
    carries the name: the input at that position has the name and none
    before it has; it returns [None] only when no declared input has the
    name; and it raises nothing when every declared input is an object. *)
Theorem input_index_first_match (n : node) (name : string)
  (ins : list json) :
  declared_inputs n = Ok ins ->
  (forall i, input_index n name = Ok (Some i) ->
     (exists inp, nth_error ins i = Some inp /\ input_named name inp = true)
     /\ forall j inp, j < i -> nth_error ins j = Some inp ->
                      input_named name inp = false)
  /\ (input_index n name = Ok None ->
      forall inp, In inp ins -> input_named name inp = false)
  /\ (forall names, input_names ins = Ok names ->
      exists r, input_index n name = Ok r).
Proof.
  intros Hins. unfold input_index. rewrite Hins; cbn [bind].
  destruct (index_of_name_spec ins name 0) as [Hs Hn].
  split; [|split].
  - intros i H. destruct (Hs i H) as (_ & Hat & Hbefore).
    rewrite Nat.sub_0_r in Hat, Hbefore. auto.
  - exact Hn.
  - intros names Hnames. eapply index_of_name_total; eassumption.
Qed.

Lemma input_index_first_match_witness :
  input_index (node_entries 8 "KSampler" ["negative"; "positive"; "negative"] [])
    "negative" = Ok (Some 0)
  /\ exists inp,
       nth_error (map input_decl ["negative"; "positive"; "negative"]) 0
       = Some inp
       /\ input_named "negative" inp = true.
Proof.
  split; [reflexivity|].
  apply (proj1 (proj1 (input_index_first_match
                         (node_entries 8 "KSampler"
                            ["negative"; "positive"; "negative"] [])
                         "negative" _ eq_refl) 0 eq_refl)).
Defined.

(** ** The node store built by [__init__] *)

Lemma store_node_stored (acc : list (json * node)) (n : json) :
  match stored n with
  | Some (id, e) => store_node acc n = Ok (Py.dict_set Py.key_eq acc id e)
  | None => exists ex, store_node acc n = Raise ex
  end.
Proof.
  unfold stored, store_node, Py.getitem.
  destruct n as [| | | |l|e]; cbn [bind]; eauto.
  destruct (Py.lookup e "id") as [id|]; cbn [bind]; eauto.
  destruct (Py.hashable id); eauto.
Qed.

Lemma stored_shape (n : json) (id : json) (e : node) :
  stored n = Some (id, e) -> n = JDict e /\ node_id e = Ok id.
Proof.
  unfold stored, node_id. destruct n as [| | | |l|e0]; try discriminate.
  destruct (Py.lookup e0 "id") as [id0|] eqn:E; [|discriminate].
  destruct (Py.hashable id0); [|discriminate].
  intros H; inversion H; subst. now rewrite E.
Qed.

Lemma build_nodes_app (a b : list json) (acc : list (json * node)) :
  build_nodes (a ++ b) acc = (acc' <- build_nodes a acc ;; build_nodes b acc').
Proof.
  revert acc; induction a as [|n r IH]; intros acc; simpl; [reflexivity|].
  destruct (store_node acc n); cbn [bind]; [apply IH | reflexivity].
Qed.

Lemma build_nodes_untouched (items : list json) (acc nds : list (json * node))
  (k : json) :
  (forall n, In n items -> has_id k n = false) ->
  build_nodes items acc = Ok nds ->
  Py.dict_find Py.key_eq nds k = Py.dict_find Py.key_eq acc k.
Proof.
  revert acc; induction items as [|n r IH]; intros acc Hk; simpl.
  - intros H; now inversion H.
  - pose proof (store_node_stored acc n) as Hs.
    specialize (Hk n (or_introl eq_refl)) as Hn. unfold has_id in Hn.
    destruct (stored n) as [[id e]|].
    + rewrite Hs; cbn [bind]. intros H.
      rewrite (IH _ (fun n' Hn' => Hk n' (or_intror Hn')) H).
      rewrite (dict_find_set Py.key_eq key_eq_sym key_eq_trans), Hn.
      reflexivity.
    + destruct Hs as [ex ->]. discriminate.
Qed.

Lemma build_nodes_members (items : list json) (acc nds : list (json * node))
  (k : json) (e : node) :
  build_nodes items acc = Ok nds ->
  In (k, e) nds ->
  In (k, e) acc \/ exists n id, In n items /\ stored n = Some (id, e).
Proof.
  revert acc; induction items as [|n r IH]; intros acc; simpl.
  - intros H; inversion H; auto.
  - pose proof (store_node_stored acc n) as Hs.
    destruct (stored n) as [[id e0]|] eqn:En.
    + rewrite Hs; cbn [bind]. intros H Hin.
      destruct (IH _ H Hin) as [Hacc|(n' & id' & Hn' & Hst)].
      * apply dict_set_in in Hacc. destruct Hacc as [Hacc| ->]; auto.
        right. exists n, id. auto.
      * right. exists n', id'. auto.
    + destruct Hs as [ex ->]. discriminate.
Qed.

Lemma init_nodes (wf : json) (g : UIGraph) :
  __init__ wf = Ok g ->
  exists ns items,
    Py.get_default wf "nodes" (JList []) = Ok ns
    /\ Py.iter ns = Ok items
    /\ build_nodes items [] = Ok (nodes g).
Proof.
  unfold __init__.
  destruct (Py.get_default wf "nodes" (JList [])) as [ns|] eqn:E1;
    cbn [bind]; [|discriminate].
  destruct (Py.iter ns) as [items|] eqn:E2; cbn [bind]; [|discriminate].
  destruct (build_nodes items []) as [nds|] eqn:E3; cbn [bind];
    [|discriminate].
  destruct (Py.get_default wf "links" (JList [])) as [ls|]; cbn [bind];
    [|discriminate].
  destruct (Py.iter ls) as [Ls|]; cbn [bind]; [|discriminate].
  intros H; inversion H; subst; simpl. exists ns, items.
  split; [reflexivity|]. split; assumption.
Qed.

(** The node store answers, for every id, with the last object of the
    document's node sequence that carries this id: of two objects with the
    same id the later one is found.  An id that no object carries is not
    found.  Every stored node is one of the document's objects and has an
    "id" entry. *)
Theorem node_store_last_wins (wf : json) (g : UIGraph) (ns : json)
  (items : list json) :
  __init__ wf = Ok g ->
  Py.get_default wf "nodes" (JList []) = Ok ns ->
  Py.iter ns = Ok items ->
  (forall pre n post id e k,
      items = pre ++ n :: post ->
      stored n = Some (id, e) ->
      Py.key_eq k id = true ->
      (forall n', In n' post -> has_id k n' = false) ->
      Py.dict_find Py.key_eq (nodes g) k = Some e)
  /\ (forall k,
        (forall n, In n items -> has_id k n = false) ->
        Py.dict_find Py.key_eq (nodes g) k = None)
  /\ (forall e,
        In e (Py.dict_values (nodes g)) ->
        In (JDict e) items /\ exists id, node_id e = Ok id).
Proof.
  intros Hinit Hns Hit.
  destruct (init_nodes _ _ Hinit) as (ns' & items' & Hns' & Hit' & Hb).
  rewrite Hns in Hns'. inversion Hns'; subst ns'.
  rewrite Hit in Hit'. inversion Hit'; subst items'. clear Hns' Hit'.
  split; [|split].
  - intros pre n post id e k -> Hst Hk Hpost.
    rewrite build_nodes_app in Hb.
    destruct (build_nodes pre []) as [acc|]; cbn [bind] in Hb;
      [|discriminate].
    simpl in Hb. pose proof (store_node_stored acc n) as Hs.
    rewrite Hst in Hs. rewrite Hs in Hb; cbn [bind] in Hb.
    rewrite (build_nodes_untouched _ _ _ _ Hpost Hb).
    rewrite (dict_find_set Py.key_eq key_eq_sym key_eq_trans), Hk.
    reflexivity.
  - intros k Hk. now rewrite (build_nodes_untouched _ _ _ _ Hk Hb).
  - intros e He. unfold Py.dict_values in He.
    apply in_map_iff in He. destruct He as ([k e'] & Hsnd & Hin).
    simpl in Hsnd; subst e'.
    destruct (build_nodes_members _ _ _ _ _ Hb Hin) as [[]|(n & id & Hn & Hst)].
    destruct (stored_shape _ _ _ Hst) as [-> Hid]. eauto.
Qed.

Lemma node_store_last_wins_witness :
  Py.dict_find Py.key_eq (nodes (graph_of doc_duplicates)) (JInt 7)
  = Some (node_entries 7 "CLIPTextEncode" [] [JStr "second"])
  /\ Py.dict_find Py.key_eq (nodes (graph_of doc_duplicates)) (JInt 9) = None.
Proof.
  destruct (node_store_last_wins doc_duplicates (graph_of doc_duplicates)
              _ _ eq_refl eq_refl eq_refl) as (Hlast & Hnone & _).
  split.
  - apply (Hlast
             [ node_obj 7 "CLIPTextEncode" [] [JStr "first"];
               node_obj 8 "KSampler" ["negative"; "positive"; "negative"] [] ]
             (node_obj 7 "CLIPTextEncode" [] [JStr "second"]) []
             (JInt 7)); try reflexivity.
    intros n' [].
  - apply Hnone. intros n [<-|[<-|[<-|[]]]]; reflexivity.
Defined.

Lemma init_nodes_have_id (wf : json) (g : UIGraph) (e : node) :
  __init__ wf = Ok g ->
  In e (Py.dict_values (nodes g)) ->
  exists id, node_id e = Ok id.
Proof.
  intros Hinit He. destruct (init_nodes _ _ Hinit) as (ns & items & _ & _ & Hb).
  unfold Py.dict_values in He. apply in_map_iff in He.
  destruct He as ([k e'] & Hsnd & Hin). simpl in Hsnd; subst e'.
  destruct (build_nodes_members _ _ _ _ _ Hb Hin) as [[]|(n & id & _ & Hst)].
  destruct (stored_shape _ _ _ Hst) as [_ Hid]. eauto.
Qed.

(** ** [find_nodes] and [first_node] *)

Lemma find_nodes_in_filter (ns : list node) (types : list string) :
  forallb (fun n => Py.hashable (Py.dget n "type")) ns = true ->
  find_nodes_in ns types = Ok (filter (of_type types) ns).
Proof.
  induction ns as [|n r IH]; simpl; [reflexivity|].
  rewrite andb_true_iff. intros [Hn Hr].
  unfold Py.in_str_set. rewrite Hn; cbn [bind].
  rewrite (IH Hr); cbn [bind]. unfold of_type.
  destruct (Py.in_strs (Py.dget n "type") types); reflexivity.
Qed.

Lemma find_nodes_in_unhashable (ns : list node) (types : list string) :
  existsb (fun n => negb (Py.hashable (Py.dget n "type"))) ns = true ->
  find_nodes_in ns types = Raise TypeError.
Proof.
  induction ns as [|n r IH]; simpl; [discriminate|].
  unfold Py.in_str_set.
  destruct (Py.hashable (Py.dget n "type")); simpl; [|reflexivity].
  intros Hr. rewrite (IH Hr). reflexivity.
Qed.

Lemma hd_error_filter {A : Type} (p : A -> bool) (l : list A) :
  hd_error (filter p l) = find p l.
Proof.
  induction l as [|x r IH]; simpl; [reflexivity|].
  destruct (p x); [reflexivity | exact IH].
Qed.

Lemma forallb_values {K V : Type} (p : V -> bool) (d : list (K * V)) :
  forallb p (Py.dict_values d) = forallb (fun kv => p (snd kv)) d.
Proof.
  induction d as [|x r IH]; simpl; [reflexivity|]. now rewrite IH.
Qed.

Lemma types_hashable_values (g : UIGraph) :
  types_hashable g = true ->
  forallb (fun n => Py.hashable (Py.dget n "type")) (Py.dict_values (nodes g))
  = true.
Proof.
  unfold types_hashable. now rewrite forallb_values.
Qed.

Lemma unhashable_type_found (ns : list node) :
  forallb (fun n => Py.hashable (Py.dget n "type")) ns = false ->
  existsb (fun n => negb (Py.hashable (Py.dget n "type"))) ns = true.
Proof.
  induction ns as [|n r IH]; simpl; [discriminate|].
  destruct (Py.hashable (Py.dget n "type")); simpl; auto.
Qed.

Lemma first_node_find (g : UIGraph) (types : list string) :
  types_hashable g = true ->
  first_node g types = Ok (find (of_type types) (Py.dict_values (nodes g))).
Proof.
  intros Hg. unfold first_node, find_nodes.
  rewrite (find_nodes_in_filter _ _ (types_hashable_values g Hg)).
  cbn [bind]. now rewrite hd_error_filter.
Qed.

(** [find_nodes] returns the nodes of the given types in the order of the
    node store and [first_node] the first of them, or [None] when there is
    none.  Both look at the type of every node of the store: one node whose
    type is a list or an object makes them raise [TypeError], wherever it
    stands. *)
Theorem find_nodes_in_store_order (g : UIGraph) (types : list string) :
  (types_hashable g = true ->
   find_nodes g types = Ok (filter (of_type types) (Py.dict_values (nodes g)))
   /\ first_node g types
      = Ok (find (of_type types) (Py.dict_values (nodes g))))
  /\ (types_hashable g = false ->
      find_nodes g types = Raise TypeError
      /\ first_node g types = Raise TypeError).
Proof.
  unfold first_node, find_nodes. split.
  - intros Hg.
    rewrite (find_nodes_in_filter _ _ (types_hashable_values g Hg)).
    split; [reflexivity|]. cbn [bind]. now rewrite hd_error_filter.
  - intros Hg.
    assert (E : find_nodes_in (Py.dict_values (nodes g)) types
                = Raise TypeError).
    { apply find_nodes_in_unhashable, unhashable_type_found.
      unfold types_hashable in Hg. now rewrite forallb_values. }
    rewrite E. split; reflexivity.
Qed.

Lemma find_nodes_in_store_order_witness :
  first_node (graph_of doc_two_encoders) ["WanVideoTextEncode"]
  = Ok (Some (node_entries 6 "WanVideoTextEncode" []
                [JStr "a cat"; JStr "noise"])).
Proof.
  apply (proj2 (proj1 (find_nodes_in_store_order (graph_of doc_two_encoders)
                         ["WanVideoTextEncode"]) eq_refl)).
Defined.

(** ** What a selected sampler is *)

Lemma first_reaching_member (g : UIGraph) (cands : list node) (s : node) :
  first_reaching g cands = Ok (Some s) -> In s cands.
Proof.
  induction cands as [|c r IH]; simpl; [discriminate|].
  destruct (node_id c); cbn [bind]; [|discriminate].
  destruct (_reaches_output g a default_max_hops) as [[|]|]; cbn [bind];
    try discriminate.
  - intros H; inversion H; auto.
  - intros H; right; now apply IH.
Qed.

Lemma select_member (g : UIGraph) (cands : list node) (s : node) :
  select g cands = Ok (Some s) -> In s cands.
Proof.
  unfold select.
  destruct (first_reaching g cands) as [[c|]|] eqn:E; cbn [bind];
    try discriminate.
  - intros H; inversion H; subst. eapply first_reaching_member; eassumption.
  - destruct cands; simpl; [discriminate|].
    intros H; inversion H; now left.
Qed.

Lemma select_nothing (g : UIGraph) (cands : list node) :
  select g cands = Ok None -> cands = [].
Proof.
  unfold select.
  destruct (first_reaching g cands) as [[c|]|]; cbn [bind]; try discriminate.
  destruct cands; [reflexivity | discriminate].
Qed.

Lemma collect_sound (keep : node -> res bool) (ns l : list node) (s : node) :
  collect keep ns = Ok l -> In s l -> In s ns /\ keep s = Ok true.
Proof.
  intros Hc Hin. rewrite (collect_filter _ _ _ Hc) in Hin.
  apply filter_In in Hin. destruct Hin as [Hin Hk]. split; [exact Hin|].
  unfold kept in Hk. destruct (keep s) as [[|]|]; try discriminate.
  reflexivity.
Qed.

Lemma collect_rejects (keep : node -> res bool) (ns : list node) (n : node) :
  collect keep ns = Ok [] -> In n ns -> keep n = Ok false.
Proof.
  revert n; induction ns as [|m r IH]; intros n; simpl; [intros _ []|].
  destruct (keep m) as [b|] eqn:Em; cbn [bind]; [|discriminate].
  destruct (collect keep r) as [tl|]; cbn [bind]; [|discriminate].
  destruct b; [discriminate|].
  intros H [<-|Hin]; [exact Em|]. inversion H; subst tl. now apply IH.
Qed.

Lemma has_name_index (ins names : list json) (name : string) (k : nat) :
  input_names ins = Ok names ->
  has_name name names = true ->
  exists i, index_of_name ins name k = Ok (Some i).
Proof.
  revert names k; induction ins as [|inp r IH]; intros names k; simpl.
  - intros H; inversion H; subst. discriminate.
  - destruct (Py.get inp "name") as [nm|]; cbn [bind]; [|discriminate].
    destruct (input_names r) as [tl|]; cbn [bind]; [|discriminate].
    intros H; inversion H; subst names. unfold has_name; simpl.
    destruct (Py.str_is nm name); [eauto|]. simpl.
    exact (IH tl (S k) eq_refl).
Qed.

Lemma is_not_none_true (v : json) : is_not_none v = true -> v <> JNull.
Proof. destruct v; [discriminate | | | | |]; discriminate. Qed.

Lemma posneg_candidate_wired (g : UIGraph) (s : node) :
  posneg_candidate g s = Ok true ->
  of_type KNOWN_POSNEG_SAMPLERS s = true
  /\ exists id pi ni psrc nsrc,
       node_id s = Ok id
       /\ input_index s "positive" = Ok (Some pi)
       /\ input_index s "negative" = Ok (Some ni)
       /\ src_for g id (JInt (Z.of_nat pi)) = Ok psrc
       /\ src_for g id (JInt (Z.of_nat ni)) = Ok nsrc
       /\ (psrc <> JNull \/ nsrc <> JNull).
Proof.
  unfold posneg_candidate, of_type.
  destruct (Py.in_strs (Py.dget s "type") KNOWN_POSNEG_SAMPLERS);
    cbn [negb].
  2:{ destruct (node_id s); cbn [bind]; discriminate. }
  destruct (declared_inputs s) as [ins|] eqn:Ei; cbn [bind]; [|discriminate].
  destruct (input_names ins) as [names|] eqn:En; cbn [bind]; [|discriminate].
  destruct (has_name "positive" names) eqn:Hp; [|discriminate].
  destruct (has_name "negative" names) eqn:Hn; [|discriminate].
  cbn [andb]. unfold input_index. rewrite Ei; cbn [bind].
  destruct (has_name_index _ _ _ 0 En Hp) as [pi ->].
  destruct (has_name_index _ _ _ 0 En Hn) as [ni ->].
  cbn [bind slot_value].
  destruct (node_id s) as [id|] eqn:Eid; cbn [bind]; [|discriminate].
  destruct (src_for g id (JInt (Z.of_nat pi))) as [psrc|] eqn:Eps;
    cbn [bind]; [|discriminate].
  destruct (src_for g id (JInt (Z.of_nat ni))) as [nsrc|] eqn:Ens;
    cbn [bind]; [|discriminate].
  intros H; inversion H as [Hw]. split; [reflexivity|].
  exists id, pi, ni, psrc, nsrc.
  split; [reflexivity|]. split; [reflexivity|]. split; [reflexivity|].
  split; [exact Eps|]. split; [exact Ens|].
  apply orb_true_iff in Hw. destruct Hw as [Hw|Hw];
    [left | right]; now apply is_not_none_true.
Qed.

(** Whatever [sampler_with_posneg] returns is a node of the store of an
    allow-listed type that declares "positive" and "negative" and has a
    source on at least one of the two slots; it returns [None] only when no
    node of the store passes that test. *)
Theorem posneg_selected_is_wired (g : UIGraph) :
  (forall s, sampler_with_posneg g = Ok (Some s) ->
     In s (Py.dict_values (nodes g))
     /\ of_type KNOWN_POSNEG_SAMPLERS s = true
     /\ exists id pi ni psrc nsrc,
          node_id s = Ok id
          /\ input_index s "positive" = Ok (Some pi)
          /\ input_index s "negative" = Ok (Some ni)
          /\ src_for g id (JInt (Z.of_nat pi)) = Ok psrc
          /\ src_for g id (JInt (Z.of_nat ni)) = Ok nsrc
          /\ (psrc <> JNull \/ nsrc <> JNull))
  /\ (sampler_with_posneg g = Ok None ->
      forall n, In n (Py.dict_values (nodes g)) ->
                posneg_candidate g n = Ok false).
Proof.
  unfold sampler_with_posneg, posneg_candidates. split.
  - intros s.
    destruct (collect (posneg_candidate g) (Py.dict_values (nodes g)))
      as [cands|] eqn:Ec; cbn [bind]; [|discriminate].
    intros Hs. apply select_member in Hs.
    destruct (collect_sound _ _ _ _ Ec Hs) as [Hin Hk].
    split; [exact Hin|]. now apply posneg_candidate_wired.
  - destruct (collect (posneg_candidate g) (Py.dict_values (nodes g)))
      as [cands|] eqn:Ec; cbn [bind]; [|discriminate].
    intros Hs n Hn. apply select_nothing in Hs. subst cands.
    eapply collect_rejects; eassumption.
Qed.

Lemma posneg_selected_is_wired_witness :
  In (node_entries 9 "KSampler" ["model"; "positive"; "negative"] [])
     (Py.dict_values (nodes (graph_of doc_negative_only)))
  /\ posneg_candidate (graph_of doc_two_encoders)
       (node_entries 4 "LoadImage" [] [JStr "cat.png"]) = Ok false.
Proof.
  split.
  - apply (proj1 (proj1 (posneg_selected_is_wired (graph_of doc_negative_only))
                    _ eq_refl)).
  - apply (proj2 (posneg_selected_is_wired (graph_of doc_two_encoders))
             eq_refl).
    now left.
Defined.

Lemma text_embeds_candidate_wired (g : UIGraph) (s : node) :
  text_embeds_candidate g s = Ok true ->
  of_type KNOWN_TEXT_EMBEDS_SAMPLERS s = true
  /\ exists id k src,
       node_id s = Ok id
       /\ input_index s "text_embeds" = Ok (Some k)
       /\ src_for g id (JInt (Z.of_nat k)) = Ok src
       /\ src <> JNull.
Proof.
  unfold text_embeds_candidate, of_type.
  destruct (Py.in_strs (Py.dget s "type") KNOWN_TEXT_EMBEDS_SAMPLERS);
    cbn [negb].
  2:{ destruct (node_id s); cbn [bind]; discriminate. }
  destruct (declared_inputs s) as [ins|] eqn:Ei; cbn [bind]; [|discriminate].
  destruct (input_names ins) as [names|] eqn:En; cbn [bind]; [|discriminate].
  destruct (has_name "text_embeds" names) eqn:Hp; [|discriminate].
  unfold input_index. rewrite Ei; cbn [bind].
  destruct (has_name_index _ _ _ 0 En Hp) as [k ->].
  cbn [bind slot_value].
  destruct (node_id s) as [id|] eqn:Eid; cbn [bind]; [|discriminate].
  destruct (src_for g id (JInt (Z.of_nat k))) as [src|] eqn:Es;
    cbn [bind]; [|discriminate].
  intros H; inversion H as [Hw]. split; [reflexivity|].
  exists id, k, src.
  split; [reflexivity|]. split; [reflexivity|]. split; [exact Es|].
  now apply is_not_none_true.
Qed.

(** [sampler_with_text_embeds] chooses as [sampler_with_posneg] does, among
    the nodes of an allow-listed type whose "text_embeds" input has a
    source: the candidates stand in the order of the node store, a
    candidate that reaches an output node is preferred wherever it stands,
    the first candidate is the fallback, and whatever is returned has its
    "text_embeds" input wired. *)
Theorem text_embeds_selection (g : UIGraph) (cands : list node) :
  text_embeds_candidates g = Ok cands ->
  cands = filter (kept (text_embeds_candidate g)) (Py.dict_values (nodes g))
  /\ (forall pre c post,
        cands = pre ++ c :: post ->
        (forall p, In p pre -> candidate_reaches g p = Ok false) ->
        candidate_reaches g c = Ok true ->
        sampler_with_text_embeds g = Ok (Some c))
  /\ ((forall c, In c cands -> candidate_reaches g c = Ok false) ->
      sampler_with_text_embeds g = Ok (hd_error cands))
  /\ (forall s, sampler_with_text_embeds g = Ok (Some s) ->
        In s (Py.dict_values (nodes g))
        /\ of_type KNOWN_TEXT_EMBEDS_SAMPLERS s = true
        /\ exists id k src,
             node_id s = Ok id
             /\ input_index s "text_embeds" = Ok (Some k)
             /\ src_for g id (JInt (Z.of_nat k)) = Ok src
             /\ src <> JNull).
Proof.
  intros Hc. split; [|split; [|split]].
  - apply collect_filter. exact Hc.
  - intros pre c post -> Hpre Hreach.
    unfold sampler_with_text_embeds. rewrite Hc; cbn [bind].
    now apply select_reaching.
  - intros Hnone. unfold sampler_with_text_embeds. rewrite Hc; cbn [bind].
    now apply select_none_reaching.
  - intros s. unfold sampler_with_text_embeds. rewrite Hc; cbn [bind].
    intros Hs. apply select_member in Hs.
    unfold text_embeds_candidates in Hc.
    destruct (collect_sound _ _ _ _ Hc Hs) as [Hin Hk].
    split; [exact Hin|]. now apply text_embeds_candidate_wired.
Qed.

Lemma text_embeds_selection_witness :
  sampler_with_text_embeds (graph_of doc_two_embeds_samplers)
  = Ok (Some (node_entries 11 "WanVideoSampler" ["model"; "text_embeds"] [])).
Proof.
  apply (proj1 (proj2 (text_embeds_selection
                         (graph_of doc_two_embeds_samplers)
                         [ node_entries 10 "WanVideoSampler"
                             ["model"; "text_embeds"] [];
                           node_entries 11 "WanVideoSampler"
                             ["model"; "text_embeds"] [] ]
                         eq_refl))
           [ node_entries 10 "WanVideoSampler" ["model"; "text_embeds"] [] ]
           _ []).
  - reflexivity.
  - intros p [<-|[]]. reflexivity.
  - reflexivity.
Defined.

(** ** [_norm] *)

Lemma rstrip_idem (s : string) : Py.rstrip (Py.rstrip s) = Py.rstrip s.
Proof.
  induction s as [|c r IH]; [reflexivity|]. simpl.
  destruct (Py.rstrip r) as [|c2 r2] eqn:E.
  - destruct (Py.is_space c) eqn:Ec; [reflexivity|].
    simpl. now rewrite Ec.
  - change (Py.rstrip (String c (String c2 r2)))
      with (match Py.rstrip (String c2 r2) with
            | EmptyString =>
                if Py.is_space c then EmptyString else String c EmptyString
            | r' => String c r'
            end).
    rewrite IH. reflexivity.
Qed.

Lemma strip_idem (s : string) : Py.strip (Py.strip s) = Py.strip s.
Proof.
  unfold Py.strip.
  destruct (lstrip_head s) as [->|(c & r & -> & E)]; [reflexivity|].
  destruct (rstrip_head c r E) as [r' Hr]. rewrite Hr.
  simpl Py.lstrip. rewrite E. rewrite <- Hr. apply rstrip_idem.
Qed.

Lemma lstrip_blank (s : string) :
  Py.blank s = true -> Py.lstrip s = EmptyString.
Proof.
  induction s as [|c r IH]; simpl; [reflexivity|].
  destruct (Py.is_space c); simpl; [exact IH | discriminate].
Qed.

(** [_norm] maps every blank string, the empty one included, to [None];
    what it returns is [None] or a string that is not blank and that
    [strip] leaves as it is, so normalizing a second time changes nothing.
    It raises on truthy values that are not strings and on nothing else. *)
Theorem norm_collapses_and_is_idempotent :
  (forall s, Py.blank s = true -> _norm (JStr s) = Ok JNull)
  /\ (forall v r, _norm v = Ok r ->
        _norm r = Ok r
        /\ (r = JNull
            \/ exists t, r = JStr t /\ Py.blank t = false /\ Py.strip t = t))
  /\ (forall v, textual v = true -> exists r, _norm v = Ok r)
  /\ (forall v, textual v = false -> _norm v = Raise AttributeError).
Proof.
  split; [|split; [|split]].
  - intros s Hs. unfold _norm, Py.or_. simpl Py.truthy.
    destruct s as [|c r]; [reflexivity|]. simpl negb. cbv iota.
    unfold Py.strip. now rewrite (lstrip_blank _ Hs).
  - intros v r Hv.
    assert (Hshape : r = JNull
                     \/ exists t, r = JStr t /\ Py.blank t = false
                                  /\ Py.strip t = t).
    { unfold _norm in Hv.
      destruct (Py.or_ v (JStr "")) as [| | |t| |]; try discriminate.
      inversion Hv; subst r; clear Hv. unfold Py.or_; simpl.
      destruct (strip_not_blank t) as [E|E].
      - rewrite E; simpl. now left.
      - destruct (Py.strip t) as [|c r] eqn:Et; [discriminate E|].
        simpl. right. exists (String c r). split; [reflexivity|].
        split; [exact E|]. rewrite <- Et. apply strip_idem. }
    split; [|exact Hshape].
    destruct Hshape as [->|(t & -> & Hb & Hs)]; [reflexivity|].
    unfold _norm, Py.or_. rewrite (not_blank_truthy _ Hb), Hs.
    now rewrite (not_blank_truthy _ Hb).
  - exact norm_textual.
  - exact norm_not_textual.
Qed.

Lemma norm_collapses_and_is_idempotent_witness :
  _norm (JStr "  ") = Ok JNull
  /\ _norm (JStr "a photo") = Ok (JStr "a photo").
Proof.
  destruct norm_collapses_and_is_idempotent as (Hblank & Hidem & _ & _).
  split.
  - apply Hblank. reflexivity.
  - apply (proj1 (Hidem (JStr " a photo ") (JStr "a photo") eq_refl)).
Defined.

(** ** The stages of the UI branch, one by one *)

Lemma stages_in_order_witness :
  extract_ui (graph_of doc_rewired) = Ok (JStr "a photo", JStr "blurry").
Proof.
  apply (proj1 (proj1 (stages_in_order (graph_of doc_rewired))
                  (JStr "a photo", JStr "blurry") eq_refl)).
Defined.

(** Stage (a) composes the primitives: with the selected sampler's two
    named inputs mapped to slots, the slots to their sources and the
    sources to their texts, the pipeline returns exactly the two texts when
    one of them is present, and otherwise goes on with the later stages. *)
Theorem posneg_stage_follows_wiring
  (d : list (string * json)) (ns : json) (g : UIGraph) (n : node)
  (id psrc nsrc p q : json) (pi ni : nat) :
  Py.lookup d "nodes" = Some ns ->
  __init__ (JDict d) = Ok g ->
  sampler_with_posneg g = Ok (Some n) ->
  node_id n = Ok id ->
  input_index n "positive" = Ok (Some pi) ->
  input_index n "negative" = Ok (Some ni) ->
  src_for g id (JInt (Z.of_nat pi)) = Ok psrc ->
  src_for g id (JInt (Z.of_nat ni)) = Ok nsrc ->
  read_text_from_node g psrc (JStr "positive") = Ok p ->
  read_text_from_node g nsrc (JStr "negative") = Ok q ->
  (Py.truthy p || Py.truthy q = true ->
   extract_prompts (JDict d) = Ok (p, q))
  /\ (Py.truthy p || Py.truthy q = false ->
      extract_prompts (JDict d) = after_posneg g).
Proof.
  intros Hns Hinit Hsel Hid Hpi Hni Hps Hnsrc Hp Hq.
  assert (Hstage : stage_posneg g = Ok (return_if_any (p, q))).
  { unfold stage_posneg. rewrite Hsel; cbn [bind].
    rewrite (node_id_truthy _ _ Hid), Hid; cbn [bind].
    unfold read_posneg. rewrite Hpi, Hni; cbn [bind].
    unfold src_of_input. rewrite Hid; cbn [bind].
    rewrite Hps, Hnsrc; cbn [bind]. rewrite Hp, Hq; cbn [bind].
    reflexivity. }
  unfold extract_prompts. rewrite Hns, Hinit; cbn [bind].
  unfold extract_ui. rewrite Hstage; cbn [bind].
  unfold return_if_any; cbn [fst snd].
  split; intros ->; reflexivity.
Qed.

Lemma posneg_stage_follows_wiring_witness :
  extract_prompts doc_rewired = Ok (JStr "a photo", JStr "blurry").
Proof.
  apply (proj1 (posneg_stage_follows_wiring
                  [("nodes",
                    JList
                      [ node_obj 76 "CLIPTextEncode" [] [JStr "a photo"];
                        node_obj 77 "CLIPTextEncode" [] [JStr "blurry"];
                        node_obj 101 "KSampler"
                          ["model"; "positive"; "negative"] [] ]);
                   ("links",
                    JList [ editor_link 1 77 0 101 1 "CONDITIONING";
                            editor_link 2 77 0 101 2 "CONDITIONING";
                            editor_link 3 76 0 101 1 "CONDITIONING" ])]
                  _ (graph_of doc_rewired)
                  (node_entries 101 "KSampler"
                     ["model"; "positive"; "negative"] [])
                  (JInt 101) (JInt 76) (JInt 77)
                  (JStr "a photo") (JStr "blurry") 1 2
                  eq_refl eq_refl eq_refl eq_refl eq_refl eq_refl eq_refl
                  eq_refl eq_refl eq_refl)).
  reflexivity.
Defined.

(** Stage (c): when the two sampler stages yield nothing, the pipeline
    returns widget values 0 and 1 of the first WanVideoTextEncode node in
    the order of the node store, as they are, and the absent pair when the
    graph has no such node. *)
Theorem fallback_reads_first_encoder
  (d : list (string * json)) (ns : json) (g : UIGraph) :
  Py.lookup d "nodes" = Some ns ->
  __init__ (JDict d) = Ok g ->
  types_hashable g = true ->
  stage_posneg g = Ok None ->
  stage_text_embeds g = Ok None ->
  extract_prompts (JDict d)
  = Ok (match find (of_type ["WanVideoTextEncode"])
                   (Py.dict_values (nodes g)) with
        | Some n => widget_prompts n
        | None => no_prompts
        end).
Proof.
  intros Hns Hinit Hg Ha Hb.
  unfold extract_prompts. rewrite Hns, Hinit; cbn [bind].
  unfold extract_ui. rewrite Ha; cbn [bind]. rewrite Hb; cbn [bind].
  unfold stage_fallback.
  rewrite (first_node_find g _ Hg); cbn [bind].
  destruct (find _ _) as [n|] eqn:Ef; [|reflexivity].
  apply find_some in Ef. destruct Ef as [Hin _].
  destruct (init_nodes_have_id _ _ _ Hinit Hin) as [id Hid].
  rewrite (node_id_truthy _ _ Hid), Hid. reflexivity.
Qed.

Lemma fallback_reads_first_encoder_witness :
  extract_prompts doc_two_encoders = Ok (JStr "a cat", JStr "noise").
Proof.
  apply (fallback_reads_first_encoder
           [("nodes",
             JList
               [ node_obj 4 "LoadImage" [] [JStr "cat.png"];
                 node_obj 6 "WanVideoTextEncode" []
                   [JStr "a cat"; JStr "noise"];
                 node_obj 5 "WanVideoTextEncode" []
                   [JStr "a dog"; JStr "blur"] ]);
            ("links", JList [])]
           _ (graph_of doc_two_encoders)
           eq_refl eq_refl eq_refl eq_refl eq_refl).
Defined.

(** ** Graphs without a node the stages look for *)

Lemma collect_none (keep : node -> res bool) (ns : list node) :
  (forall n, In n ns -> keep n = Ok false) -> collect keep ns = Ok [].
Proof.
  induction ns as [|n r IH]; intros H; simpl; [reflexivity|].
  rewrite (H n (or_introl eq_refl)); cbn [bind].
  rewrite IH by (intros m Hm; apply H; now right). reflexivity.
Qed.

Lemma in_strs_app (v : json) (a b : list string) :
  Py.in_strs v (a ++ b) = Py.in_strs v a || Py.in_strs v b.
Proof. unfold Py.in_strs. apply existsb_app. Qed.

Lemma find_none_all {A : Type} (p : A -> bool) (l : list A) :
  (forall x, In x l -> p x = false) -> find p l = None.
Proof.
  induction l as [|x r IH]; intros H; simpl; [reflexivity|].
  rewrite (H x (or_introl eq_refl)). apply IH.
  intros y Hy. apply H. now right.
Qed.

(** A graph none of whose nodes has a type the stages look for yields the
    absent pair without raising, whatever its link entries are: no sampler
    qualifies, so the reachability check never runs and a link entry that
    cannot be read does no harm. *)
Theorem no_known_node_no_prompts
  (d : list (string * json)) (ns : json) (g : UIGraph) :
  Py.lookup d "nodes" = Some ns ->
  __init__ (JDict d) = Ok g ->
  types_hashable g = true ->
  (forall n, In n (Py.dict_values (nodes g)) -> of_type looked_for n = false) ->
  sampler_with_posneg g = Ok None
  /\ sampler_with_text_embeds g = Ok None
  /\ extract_prompts (JDict d) = Ok (JNull, JNull).
Proof.
  intros Hns Hinit Hg Hnone.
  assert (Hty : forall n, In n (Py.dict_values (nodes g)) ->
            Py.in_strs (Py.dget n "type") KNOWN_POSNEG_SAMPLERS = false
            /\ Py.in_strs (Py.dget n "type") KNOWN_TEXT_EMBEDS_SAMPLERS = false
            /\ of_type ["WanVideoTextEncode"] n = false).
  { intros n Hn. specialize (Hnone n Hn).
    unfold of_type, looked_for in Hnone.
    rewrite !in_strs_app in Hnone.
    apply orb_false_iff in Hnone. destruct Hnone as [H1 H2].
    apply orb_false_iff in H2. tauto. }
  assert (Ha : sampler_with_posneg g = Ok None).
  { unfold sampler_with_posneg, posneg_candidates.
    rewrite collect_none; [reflexivity|].
    intros n Hn. unfold posneg_candidate.
    rewrite (proj1 (Hty n Hn)). cbn [negb].
    destruct (init_nodes_have_id _ _ _ Hinit Hn) as [id ->]. reflexivity. }
  assert (Hb : sampler_with_text_embeds g = Ok None).
  { unfold sampler_with_text_embeds, text_embeds_candidates.
    rewrite collect_none; [reflexivity|].
    intros n Hn. unfold text_embeds_candidate.
    rewrite (proj1 (proj2 (Hty n Hn))). cbn [negb].
    destruct (init_nodes_have_id _ _ _ Hinit Hn) as [id ->]. reflexivity. }
  split; [exact Ha|]. split; [exact Hb|].
  unfold extract_prompts. rewrite Hns, Hinit; cbn [bind].
  unfold extract_ui, stage_posneg. rewrite Ha; cbn [bind].
  unfold stage_text_embeds. rewrite Hb; cbn [bind].
  unfold stage_fallback. rewrite (first_node_find g _ Hg); cbn [bind].
  rewrite find_none_all; [reflexivity|].
  intros n Hn. exact (proj2 (proj2 (Hty n Hn))).
Qed.

Lemma no_known_node_no_prompts_witness :
  extract_prompts doc_unknown_nodes = Ok (JNull, JNull).
Proof.
  refine (proj2 (proj2 (no_known_node_no_prompts
           [("nodes",
             JList [ node_obj 1 "LoadImage" [] [JStr "cat.png"];
                     node_obj 2 "VAEDecode" ["samples"] [];
                     node_obj 3 "SaveImage" ["images"] [JStr "out"] ]);
            ("links",
             JList [ editor_link 1 1 0 2 0 "IMAGE"; JList [JInt 7]; JNull ])]
           _ (graph_of doc_unknown_nodes) eq_refl eq_refl eq_refl _))).
  intros n [<-|[<-|[<-|[]]]]; reflexivity.
Defined.

(** ** A source node numbered 0 *)

(** Stage (b) tests the source id of the selected sampler for truth, not
    for presence: when that id is falsy (the number 0, an empty string,
    [False]) the source is not followed, although the sampler qualified
    because the same id is not [None], and the pipeline goes on to the
    fallback stage. *)
Theorem falsy_source_is_not_followed
  (d : list (string * json)) (ns : json) (g : UIGraph) (s : node)
  (sid src : json) (k : nat) :
  Py.lookup d "nodes" = Some ns ->
  __init__ (JDict d) = Ok g ->
  stage_posneg g = Ok None ->
  sampler_with_text_embeds g = Ok (Some s) ->
  node_id s = Ok sid ->
  input_index s "text_embeds" = Ok (Some k) ->
  src_for g sid (JInt (Z.of_nat k)) = Ok src ->
  Py.truthy src = false ->
  stage_text_embeds g = Ok None
  /\ extract_prompts (JDict d) = stage_fallback g.
Proof.
  intros Hns Hinit Ha Hsel Hsid Hk Hsrc Hf.
  assert (Hb : stage_text_embeds g = Ok None).
  { unfold stage_text_embeds. rewrite Hsel; cbn [bind].
    rewrite (node_id_truthy _ _ Hsid), Hsid; cbn [bind].
    rewrite Hk; cbn [bind]. unfold src_of_input.
    rewrite Hsid; cbn [bind]. rewrite Hsrc; cbn [bind].
    now rewrite Hf. }
  split; [exact Hb|].
  unfold extract_prompts. rewrite Hns, Hinit; cbn [bind].
  unfold extract_ui. rewrite Ha; cbn [bind]. now rewrite Hb.
Qed.

Lemma falsy_source_is_not_followed_witness :
  extract_prompts doc_bridge_zero = Ok (JNull, JNull)
  /\ read_posneg (graph_of doc_bridge_zero)
       (node_entries 0 "WanVideoTextEmbedBridge" ["positive"; "negative"] [])
     = Ok (JStr "a castle at dawn", JStr "low quality").
Proof.
  split; [|reflexivity].
  transitivity (stage_fallback (graph_of doc_bridge_zero)); [|reflexivity].
  exact (proj2 (falsy_source_is_not_followed
           [("nodes",
             JList
               [ node_obj 20 "CLIPTextEncode" [] [JStr "a castle at dawn"];
                 node_obj 21 "CLIPTextEncode" [] [JStr " low quality"];
                 node_obj 0 "WanVideoTextEmbedBridge"
                   ["positive"; "negative"] [];
                 node_obj 90 "WanVideoSampler"
                   ["model"; "image_embeds"; "text_embeds"] [] ]);
            ("links",
             JList [ editor_link 1 20 0 0 0 "CONDITIONING";
                     editor_link 2 21 0 0 1 "CONDITIONING";
                     editor_link 3 0 0 90 2 "WANVIDEOTEXTEMBEDS" ])]
           _ (graph_of doc_bridge_zero)
           (node_entries 90 "WanVideoSampler"
              ["model"; "image_embeds"; "text_embeds"] [])
           (JInt 90) (JInt 0) 2
           eq_refl eq_refl eq_refl eq_refl eq_refl eq_refl eq_refl eq_refl)).
Defined.

(** ** [extract_specific_prompt_from_json_data] *)

(** The single-prompt entry point returns [None] or a truthy value, never
    an empty string; it passes on what [extract_prompts] raises; and when
    stage (a) of the UI branch yields a pair it returns a string that is
    not blank: the positive text if there is one, the negative text
    otherwise. *)
Theorem specific_prompt_prefers_positive :
  (forall wf r, extract_specific_prompt_from_json_data wf = Ok r ->
     r = JNull \/ Py.truthy r = true)
  /\ (forall wf e, extract_prompts wf = Raise e ->
        extract_specific_prompt_from_json_data wf = Raise e)
  /\ (forall d ns g p q,
        Py.lookup d "nodes" = Some ns ->
        __init__ (JDict d) = Ok g ->
        stage_posneg g = Ok (Some (p, q)) ->
        exists t,
          extract_specific_prompt_from_json_data (JDict d) = Ok (JStr t)
          /\ Py.blank t = false
          /\ (p = JStr t \/ (p = JNull /\ q = JStr t))).
Proof.
  split; [|split].
  - intros wf r. unfold extract_specific_prompt_from_json_data.
    destruct (extract_prompts wf) as [[p q]|]; cbn [bind fst snd];
      [|discriminate].
    destruct (Py.truthy p) eqn:Ep.
    + intros H; inversion H; subst. now right.
    + destruct (Py.truthy q) eqn:Eq; intros H; inversion H; subst; auto.
  - intros wf e He. unfold extract_specific_prompt_from_json_data.
    now rewrite He.
  - intros d ns g p q Hns Hinit Ha.
    destruct (proj1 (stages_order_facts g) (p, q) Ha)
      as (Hui & Hany & Hp & Hq). cbn [fst snd] in *.
    unfold extract_specific_prompt_from_json_data, extract_prompts.
    rewrite Hns, Hinit; cbn [bind]. rewrite Hui; cbn [bind fst snd].
    destruct Hp as [->|(t & -> & Hb)].
    + simpl Py.truthy. cbv iota. simpl in Hany.
      destruct Hq as [->|(t & -> & Hb)]; [discriminate Hany|].
      exists t. rewrite (not_blank_truthy _ Hb). auto.
    + exists t. rewrite (not_blank_truthy _ Hb). auto.
Qed.

Lemma specific_prompt_prefers_positive_witness :
  extract_specific_prompt_from_json_data doc_negative_only
  = Ok (JStr "blurry, ugly").
Proof.
  destruct (proj2 (proj2 specific_prompt_prefers_positive)
              [("nodes",
                JList
                  [ node_obj 5 "CLIPTextEncode" [] [JStr "blurry, ugly "];
                    node_obj 9 "KSampler"
                      ["model"; "positive"; "negative"] [] ]);
               ("links", JList [ editor_link 1 5 0 9 2 "CONDITIONING" ])]
              _ (graph_of doc_negative_only) JNull (JStr "blurry, ugly")
              eq_refl eq_refl eq_refl) as (t & Ht & _ & [Hp|[_ Hq]]).
  - discriminate Hp.
  - inversion Hq; subst t. exact Ht.
Defined.

(** ** Entries the flat branch passes over *)

Lemma lookup_filter_none (p : string * json -> bool)
  (d : list (string * json)) (k : string) :
  Py.lookup d k = None -> Py.lookup (filter p d) k = None.
Proof.
  induction d as [|[k' v] r IH]; simpl; [reflexivity|].
  destruct (String.eqb k' k) eqn:E; [discriminate|].
  intros H. destruct (p (k', v)); simpl; [rewrite E|]; now apply IH.
Qed.

Lemma api_wan_encode_filter (d : list (string * json)) :
  api_wan_encode (filter api_relevant d) = api_wan_encode d.
Proof.
  induction d as [|[k v] r IH]; [reflexivity|].
  cbn [filter]. unfold api_relevant at 1. cbn [snd].
  destruct v as [| | | | |nd]; cbn [is_class orb api_wan_encode]; try exact IH.
  destruct (Py.str_is (Py.dget nd "class_type") "WanVideoTextEncode") eqn:Ew.
  - cbn [orb api_wan_encode]. now rewrite Ew.
  - cbn [orb].
    destruct (Py.str_is (Py.dget nd "class_type") "TextEncodeQwenImageEdit");
      [|exact IH].
    cbn [api_wan_encode]. now rewrite Ew.
Qed.

Lemma api_qwen_edit_filter (d : list (string * json)) :
  api_qwen_edit (filter api_relevant d) = api_qwen_edit d.
Proof.
  induction d as [|[k v] r IH]; [reflexivity|].
  cbn [filter]. unfold api_relevant at 1. cbn [snd].
  destruct v as [| | | | |nd]; cbn [is_class orb api_qwen_edit]; try exact IH.
  destruct (Py.str_is (Py.dget nd "class_type") "TextEncodeQwenImageEdit") eqn:Eq.
  - rewrite orb_true_r. cbn [api_qwen_edit]. rewrite Eq, IH. reflexivity.
  - rewrite orb_false_r.
    destruct (Py.str_is (Py.dget nd "class_type") "WanVideoTextEncode");
      [|exact IH].
    cbn [api_qwen_edit]. now rewrite Eq.
Qed.

(** The flat branch reads nothing but the entries that are objects of
    class_type WanVideoTextEncode or TextEncodeQwenImageEdit: removing
    every other entry changes neither the result nor what is raised. *)
Theorem api_ignores_other_entries (d : list (string * json)) :
  Py.lookup d "nodes" = None ->
  extract_prompts (JDict (filter api_relevant d)) = extract_prompts (JDict d).
Proof.
  intros Hn. unfold extract_prompts.
  rewrite Hn, (lookup_filter_none api_relevant d "nodes" Hn).
  unfold extract_api.
  now rewrite api_wan_encode_filter, api_qwen_edit_filter.
Qed.

Lemma api_ignores_other_entries_witness :
  extract_prompts
    (JDict [ ("76", JDict [ ("class_type", JStr "TextEncodeQwenImageEdit");
                            ("inputs", JDict [("prompt", JStr "make it snow")]) ]) ])
  = extract_prompts doc_api_qwen.
Proof.
  exact (api_ignores_other_entries api_qwen_entries eq_refl).
Defined.
